(** * OpenDecoder: one decoding step of one transformer decoder layer

    A shallow embedding of [fastertransformer/open_decoder.h]: the
    constructor that loads [decoding_gemm_config.in], the workspace sizing
    query, the binding of the workspace buffer ([initialize]) and the
    control flow of [forward], together with the properties proved about
    them.

    Conventions.
    - A C++ [int] is a [Z]; every [int] operation of the source is written
      with its 32-bit two's complement wrap-around ([Int.wrap]).  C++ leaves
      signed overflow undefined; the wrap-around is what the targeted
      compilers produce for the multiplications of this file.
    - A device or host pointer is its byte address, a [Z].
    - [float] is IEEE-754 binary32, computed with the Standard Library's
      [SpecFloat] at precision 24 and maximal exponent 128. *)

From Stdlib Require Import ZArith List Ascii String Bool Lia.
From Stdlib Require Import Floats.SpecFloat.
From stdpp Require Import base list gmap functions.
Import ListNotations.

Open Scope Z_scope.

(** ** Machine integers *)

Module Int.

Definition min_signed : Z := - 2 ^ 31.
Definition max_signed : Z := 2 ^ 31 - 1.
Definition modulus : Z := 2 ^ 32.

Definition in_range (z : Z) : Prop := min_signed <= z <= max_signed.

(** The [int] that a mathematical integer is reduced to. *)
Definition wrap (z : Z) : Z := (z + 2 ^ 31) mod modulus - 2 ^ 31.

Definition mul (a b : Z) : Z := wrap (a * b).

End Int.

(** [size_t] on the 64-bit hosts CUDA supports. *)
Module SizeT.

Definition modulus : Z := 2 ^ 64.
Definition of_Z (z : Z) : Z := z mod modulus.
Definition add (a b : Z) : Z := of_Z (a + b).
Definition mul (a b : Z) : Z := of_Z (a * b).

End SizeT.

(** ** Precision traits *)

(** The two instantiations of [OpenDecoder<OpType_>] (the specialisations of
    [DecoderTransformerTraits]). *)
Inductive OperationType := FP32 | FP16.

(** Modelled from the spec: [Traits_::DataType] is declared in [common.h],
    which is not among the sources.  The element type of the full precision
    is [float] (4 bytes), that of the reduced precision is [half] (2 bytes). *)
Definition sizeof_DataType (op : OperationType) : Z :=
  match op with FP32 => 4 | FP16 => 2 end.

(** The size of a pointer to [DataType_]: pointers are 64 bits wide. *)
Definition sizeof_ptr : Z := 8.

Abbreviation ptr := Z.

(** [T *p; p + k] *)
Definition ptr_add (op : OperationType) (p : ptr) (k : Z) : ptr :=
  p + k * sizeof_DataType op.

(** [T **p; p + k] *)
Definition pptr_add (p : ptr) (k : Z) : ptr := p + k * sizeof_ptr.

(** The enumerators of cuBLAS's [cublasGemmAlgo_t] that the constructor
    names, with the values [cublas_api.h] gives them. *)
Definition CUBLAS_GEMM_DEFAULT : Z := -1.
Definition CUBLAS_GEMM_ALGO23 : Z := 23.
Definition CUBLAS_GEMM_DEFAULT_TENSOR_OP : Z := 99.
Definition CUBLAS_GEMM_ALGO15_TENSOR_OP : Z := 115.

(** ** binary32 arithmetic *)

Definition float := spec_float.

Definition float_of_int (z : Z) : float := binary_normalize 24 128 z 0 false.
Definition float_mul (x y : float) : float := SFmul 24 128 x y.
Definition float_lt (x y : float) : bool := SFltb x y.

Arguments float_of_int : simpl never.
Arguments float_mul : simpl never.
Arguments float_lt : simpl never.

(** ** Weights

    The weight structures of [common_structure.h], with the fields the
    source reaches into.  The member [ffn] of [DecoderInitParam] is
    [ffn_weight] here, [ffn] being the kernel of that name. *)

Record LayerNormWeight := { gamma : ptr; beta : ptr }.
Record DenseWeight := { kernel : ptr; bias : ptr }.
Record AttentionWeight := {
  query_weight : DenseWeight;
  key_weight : DenseWeight;
  value_weight : DenseWeight;
  attention_output_weight : DenseWeight }.
(** The feed-forward weights are handed to [ffn] through [param_]; this file
    reads none of their fields. *)
Record FFNWeight := {
  intermediate_weight : DenseWeight;
  output_weight : DenseWeight }.

Definition cublasHandle_t := Z.
Definition cudaStream_t := Z.

Record DecoderInitParam := {
  self_layernorm : LayerNormWeight;
  self_attention : AttentionWeight;
  cross_layernorm : LayerNormWeight;
  cross_attention : AttentionWeight;
  ffn_layernorm : LayerNormWeight;
  ffn_weight : FFNWeight;
  cublas_handle : cublasHandle_t;
  stream : cudaStream_t }.

(** ** The decoder object *)

Record OpenDecoder := {
  OpType_ : OperationType;
  param_ : DecoderInitParam;
  cublasAlgo_ : list Z;
  batch_size_ : Z;
  max_seq_len_ : Z;
  head_num_ : Z;
  size_per_head_ : Z;
  hidden_units_ : Z;
  memory_hidden_units_ : Z;
  norm_from_tensor_buf_ : ptr;
  query_buf_ : ptr;
  context_buf_ : ptr;
  masked_output_buf_ : ptr;
  norm_masked_output_buf_ : ptr;
  cross_output_buf_ : ptr;
  norm_cross_output_buf_ : ptr;
  ffn_inner_buf_ : ptr;
  key_buf_ : ptr;
  value_buf_ : ptr;
  qkv_kernel_ : ptr;
  qkv_input_ : ptr;
  qkv_buf_ : ptr;
  is_fuse_QKV : bool }.

(** What the storage of an object and of the constructor's locals holds
    before anything is assigned to it. *)
Record indeterminate := {
  junk_param : DecoderInitParam;
  junk_int : nat -> Z;
  junk_ptr : nat -> ptr;
  junk_float : nat -> float;
  junk_bool : bool }.

(** ** The tuning file and [fscanf] *)

Inductive conversion := conv_d | conv_f.
Record directive := { suppressed : bool; conv : conversion }.

Open Scope char_scope.

(** Reads the conversions off a format made of [%d], [%f], their
    assignment-suppressing forms [%*d], [%*f], and blanks. *)
Fixpoint parse_format (fmt : string) : list directive :=
  match fmt with
  | String "%" (String "*" (String "d" rest)) =>
      {| suppressed := true; conv := conv_d |} :: parse_format rest
  | String "%" (String "*" (String "f" rest)) =>
      {| suppressed := true; conv := conv_f |} :: parse_format rest
  | String "%" (String "d" rest) =>
      {| suppressed := false; conv := conv_d |} :: parse_format rest
  | String "%" (String "f" rest) =>
      {| suppressed := false; conv := conv_f |} :: parse_format rest
  | String _ rest => parse_format rest
  | EmptyString => []
  end.

Close Scope char_scope.

(** The text of a stream as [fscanf] meets it: blank-separated numeric
    literals.  An integer literal is a decimal integer; a real literal is
    any other numeric literal, given by the binary32 it converts to.
    Streams in which a conversion would stop inside a literal (as [%d]
    does after the [1] of [1.5]) are outside this model. *)
Inductive field := int_literal (z : Z) | real_literal (x : float).

Inductive scanned := scanned_int (z : Z) | scanned_float (x : float).

(** [%d] matches an integer literal only; [%f] matches both.  The value
    of an integer literal is given for those that fit a [long]; for the
    others the C standard leaves the conversion undefined (the wrap-around
    written here is one outcome; a library may saturate instead). *)
Definition convert (c : conversion) (f : field) : option scanned :=
  match c, f with
  | conv_d, int_literal z => Some (scanned_int (Int.wrap z))
  | conv_d, real_literal _ => None
  | conv_f, int_literal z => Some (scanned_float (float_of_int z))
  | conv_f, real_literal x => Some (scanned_float x)
  end.

(** The values assigned, in order, up to the first conversion that fails or
    finds the stream at its end. *)
Fixpoint scan (fmt : list directive) (input : list field) : list scanned :=
  match fmt, input with
  | d :: fmt', f :: input' =>
      match convert (conv d) f with
      | Some v => if suppressed d then scan fmt' input' else v :: scan fmt' input'
      | None => []
      end
  | _, _ => []
  end.

Definition EOF : Z := -1.

(** [fscanf]'s result: the number of values assigned, or [EOF] when the
    stream ends before the first conversion, and the values.  This is the
    rule of the C standard; a library may also return [EOF] when the
    stream ends later with nothing assigned yet.  The constructor only
    compares the result with 7. *)
Definition fscanf (fmt : string) (input : list field) : Z * list scanned :=
  match parse_format fmt, input with
  | _ :: _, [] => (EOF, [])
  | ds, _ => let vs := scan ds input in (Z.of_nat (length vs), vs)
  end.

(** The objects [fscanf]'s pointer arguments designate. *)
Inductive lvalue := cublasAlgo_at (i : nat) | split_time_var | fused_time_var.

Record ctor_locals := {
  algo : list Z;
  split_time : float;
  fused_time : float }.

Definition assign (l : lvalue) (v : scanned) (st : ctor_locals) : ctor_locals :=
  match l, v with
  | cublasAlgo_at i, scanned_int z =>
      {| algo := <[i := z]> (algo st);
         split_time := split_time st; fused_time := fused_time st |}
  | split_time_var, scanned_float x =>
      {| algo := algo st; split_time := x; fused_time := fused_time st |}
  | fused_time_var, scanned_float x =>
      {| algo := algo st; split_time := split_time st; fused_time := x |}
  | _, _ => st
  end.

Fixpoint assign_all (ls : list lvalue) (vs : list scanned) (st : ctor_locals)
  : ctor_locals :=
  match ls, vs with
  | l :: ls', v :: vs' => assign_all ls' vs' (assign l v st)
  | _, _ => st
  end.

(** ** The constructor *)

Inductive printf_call := printf (fmt : string) (args : list Z).

Inductive termination (A : Type) :=
| returns (a : A)
| exits (status : Z).
Arguments returns {A} a.
Arguments exits {A} status.

Definition gemm_config_format : string :=
  "%*d %*f %d %f %d %*f %d %*f %d %*f %d %f"%string.

Definition gemm_config_args : list lvalue :=
  [cublasAlgo_at 0; split_time_var; cublasAlgo_at 1; cublasAlgo_at 2;
   cublasAlgo_at 3; cublasAlgo_at 4; fused_time_var].

(** The value the constructor's local [default_algo] receives. *)
Definition default_algo (op : OperationType) : Z :=
  match op with
  | FP32 => CUBLAS_GEMM_DEFAULT
  | FP16 => CUBLAS_GEMM_DEFAULT_TENSOR_OP
  end.

(** [for (int i = 0; i < 5; i++) cublasAlgo_[i] = default_algo;] *)
Definition fill_default (default_algo : Z) (a : list Z) : list Z :=
  fold_left (fun a i => <[i := default_algo]> a) (seq 0 5) a.

(** The test of the two range-checking loops:
    [cublasAlgo_[i] > hi || cublasAlgo_[i] < lo]. *)
Definition out_of_range (hi lo x : Z) : bool := (x >? hi) || (x <? lo).

(** The two range-checking loops: the first [cublasAlgo_[i]] above [hi] or
    below [lo], if there is one. *)
Fixpoint first_invalid (hi lo : Z) (a : list Z) (idx : list nat) : option Z :=
  match idx with
  | [] => None
  | i :: idx' =>
      let x := nth i a 0 in
      if out_of_range hi lo x then Some x else first_invalid hi lo a idx'
  end.

Definition construct (op : OperationType) (u : indeterminate)
    (cublasAlgo : list Z) (fuse : bool)
    (batch_size seq_len head_num size_per_head memory_hidden_units : Z)
  : OpenDecoder :=
  {| OpType_ := op;
     param_ := junk_param u;
     cublasAlgo_ := cublasAlgo;
     batch_size_ := batch_size;
     max_seq_len_ := seq_len;
     head_num_ := head_num;
     size_per_head_ := size_per_head;
     hidden_units_ := Int.mul head_num size_per_head;
     memory_hidden_units_ := memory_hidden_units;
     norm_from_tensor_buf_ := junk_ptr u 0;
     query_buf_ := junk_ptr u 1;
     context_buf_ := junk_ptr u 2;
     masked_output_buf_ := junk_ptr u 3;
     norm_masked_output_buf_ := junk_ptr u 4;
     cross_output_buf_ := junk_ptr u 5;
     norm_cross_output_buf_ := junk_ptr u 6;
     ffn_inner_buf_ := junk_ptr u 7;
     key_buf_ := junk_ptr u 8;
     value_buf_ := junk_ptr u 9;
     qkv_kernel_ := junk_ptr u 10;
     qkv_input_ := junk_ptr u 11;
     qkv_buf_ := junk_ptr u 12;
     is_fuse_QKV := fuse |}.

(** [OpenDecoder::OpenDecoder].  [file] is what
    [fopen("decoding_gemm_config.in", "r")] finds: [None] when it returns
    [NULL], the stream's fields otherwise.  The result is the calls of
    [printf] made and either the constructed object or the status [exit]
    was called with.  The call trace that a debug build prints first
    ([PRINT_FUNC_NAME_()], a macro of [common.h]) is no call of [printf] of
    the constructor; [OpenDecoder_ctor_in_build] has it. *)
Definition OpenDecoder_ctor (op : OperationType) (u : indeterminate)
    (file : option (list field))
    (batch_size seq_len head_num size_per_head memory_hidden_units : Z)
  : list printf_call * termination OpenDecoder :=
  let cublasAlgo0 := map (junk_int u) (seq 0 5) in
  let '(out, err, cublasAlgo1, fuse1) :=
    match file with
    | None =>
        ([printf "[WARNING] decoding_gemm_config.in is not found\n"%string []],
         0, cublasAlgo0, junk_bool u)
    | Some input =>
        let '(err, vs) := fscanf gemm_config_format input in
        let st := assign_all gemm_config_args vs
                    {| algo := cublasAlgo0;
                       split_time := junk_float u 0;
                       fused_time := junk_float u 1 |} in
        ([], err, algo st,
         float_lt (fused_time st) (float_mul (split_time st) (float_of_int 3)))
    end in
  if negb (err =? 7) then
    (out, returns (construct op u (fill_default (default_algo op) cublasAlgo1) false
                     batch_size seq_len head_num size_per_head memory_hidden_units))
  else
    match op with
    | FP32 =>
        match first_invalid CUBLAS_GEMM_ALGO23 CUBLAS_GEMM_DEFAULT cublasAlgo1 (seq 0 5) with
        | Some x =>
            (out ++ [printf "[ERROR] cuBLAS Algorithm %d is not used in FP32. \n"%string [x]],
             exits (-1))
        | None =>
            (out, returns (construct op u cublasAlgo1 fuse1
                             batch_size seq_len head_num size_per_head memory_hidden_units))
        end
    | FP16 =>
        match first_invalid CUBLAS_GEMM_ALGO15_TENSOR_OP CUBLAS_GEMM_DEFAULT_TENSOR_OP
                cublasAlgo1 (seq 0 5) with
        | Some x =>
            (out ++ [printf "[ERROR] cuBLAS Algorithm %d is not used in FP16. \n"%string [x]],
             exits (-1))
        | None =>
            (out, returns (construct op u cublasAlgo1 fuse1
                             batch_size seq_len head_num size_per_head memory_hidden_units))
        end
    end.

(** An id inside the range of the precision: from its default id up to
    its last algorithm id. *)
Definition valid_algo (op : OperationType) (x : Z) : bool :=
  match op with
  | FP32 => (CUBLAS_GEMM_DEFAULT <=? x) && (x <=? CUBLAS_GEMM_ALGO23)
  | FP16 => (CUBLAS_GEMM_DEFAULT_TENSOR_OP <=? x) && (x <=? CUBLAS_GEMM_ALGO15_TENSOR_OP)
  end.

Definition scanned_ints (vs : list scanned) : list Z :=
  omap (fun v => match v with scanned_int z => Some z | scanned_float _ => None end) vs.

(** The binary32 a field converts to under [%f]. *)
Definition field_float (f : field) : float :=
  match f with int_literal z => float_of_int z | real_literal x => x end.

(** The constructor takes its fallback path on this [fopen] result: there
    is no file, or [fscanf] assigns other than seven values. *)
Definition falls_back (file : option (list field)) : Prop :=
  match file with
  | None => True
  | Some input => (fscanf gemm_config_format input).1 <> 7
  end.

(** ** Workspace *)

(** [OpenDecoder::getWorkspaceSize].  [13 * buf_size] is an [int]; the sum
    with [sizeof(...) * 9] is formed in [size_t] and returned as an [int]. *)
Definition getWorkspaceSize (d : OpenDecoder) : Z :=
  let buf_size := Int.mul (batch_size_ d) (hidden_units_ d) in
  Int.wrap (SizeT.add (SizeT.of_Z (Int.mul 13 buf_size)) (SizeT.mul sizeof_ptr 9)).

Inductive cudaMemcpyKind := cudaMemcpyHostToDevice | cudaMemcpyDeviceToHost.

(** Calls into the CUDA runtime and the C++ allocator that the class
    contains.  The source of a host-to-device copy is given by the
    contents of the host array at the call. *)
Inductive runtime_call :=
| cudaMemcpyAsync (dst : ptr) (src : list ptr) (count : Z)
    (kind : cudaMemcpyKind) (stream : cudaStream_t)
| cudaMemcpy (dst src : ptr) (count : Z) (kind : cudaMemcpyKind)
| operator_new_array (count : Z).

Definition allocates (c : runtime_call) : bool :=
  match c with operator_new_array _ => true | _ => false end.

(** [OpenDecoder::initialize]: the object with its workspace pointers bound
    into [buf], and the runtime calls made.  The offsets [k * buf_size] are
    products of [int]s, written here with their 32-bit wrap-around.  C++
    leaves their overflow undefined (a build may also form them in 64
    bits), so the definition is the code's where [9 * buf_size], the
    largest of them, is an [int]. *)
Definition initialize (d : OpenDecoder) (param : DecoderInitParam) (buf : ptr)
  : OpenDecoder * list runtime_call :=
  let op := OpType_ d in
  let buf_size := Int.mul (batch_size_ d) (hidden_units_ d) in
  let norm_from_tensor_buf := buf in
  let query_buf := ptr_add op buf buf_size in
  let key_buf := ptr_add op buf (Int.mul 2 buf_size) in
  let value_buf := ptr_add op buf (Int.mul 3 buf_size) in
  let context_buf := ptr_add op buf (Int.mul 4 buf_size) in
  let masked_output_buf := ptr_add op buf (Int.mul 5 buf_size) in
  let norm_masked_output_buf := ptr_add op buf (Int.mul 6 buf_size) in
  let cross_output_buf := ptr_add op buf (Int.mul 7 buf_size) in
  let norm_cross_output_buf := ptr_add op buf (Int.mul 8 buf_size) in
  let ffn_inner_buf := ptr_add op buf (Int.mul 9 buf_size) in
  let qkv_kernel := ptr_add op ffn_inner_buf (Int.mul 4 buf_size) in
  let qkv_input := pptr_add qkv_kernel 3 in
  let qkv_buf := pptr_add qkv_input 3 in
  ({| OpType_ := op;
      param_ := param;
      cublasAlgo_ := cublasAlgo_ d;
      batch_size_ := batch_size_ d;
      max_seq_len_ := max_seq_len_ d;
      head_num_ := head_num_ d;
      size_per_head_ := size_per_head_ d;
      hidden_units_ := hidden_units_ d;
      memory_hidden_units_ := memory_hidden_units_ d;
      norm_from_tensor_buf_ := norm_from_tensor_buf;
      query_buf_ := query_buf;
      context_buf_ := context_buf;
      masked_output_buf_ := masked_output_buf;
      norm_masked_output_buf_ := norm_masked_output_buf;
      cross_output_buf_ := cross_output_buf;
      norm_cross_output_buf_ := norm_cross_output_buf;
      ffn_inner_buf_ := ffn_inner_buf;
      key_buf_ := key_buf;
      value_buf_ := value_buf;
      qkv_kernel_ := qkv_kernel;
      qkv_input_ := qkv_input;
      qkv_buf_ := qkv_buf;
      is_fuse_QKV := is_fuse_QKV d |},
   if is_fuse_QKV d then
     let hA :=
       [kernel (query_weight (self_attention param));
        kernel (key_weight (self_attention param));
        kernel (value_weight (self_attention param));
        norm_from_tensor_buf; norm_from_tensor_buf; norm_from_tensor_buf;
        query_buf; key_buf; value_buf] in
     [cudaMemcpyAsync qkv_kernel hA (SizeT.mul sizeof_ptr 9)
        cudaMemcpyHostToDevice (stream param)]
   else []).

(** The tensor regions in the order [initialize] binds them into the
    buffer, each with the number of elements the step addresses through it:
    [m * n] with [m = batch_size_] and [n = hidden_units_], and
    [m * (4 * n)] for the inner buffer of [ffn]. *)
Definition workspace_regions (d : OpenDecoder) : list (ptr * Z) :=
  let buf_size := batch_size_ d * hidden_units_ d in
  [(norm_from_tensor_buf_ d, buf_size);
   (query_buf_ d, buf_size);
   (key_buf_ d, buf_size);
   (value_buf_ d, buf_size);
   (context_buf_ d, buf_size);
   (masked_output_buf_ d, buf_size);
   (norm_masked_output_buf_ d, buf_size);
   (cross_output_buf_ d, buf_size);
   (norm_cross_output_buf_ d, buf_size);
   (ffn_inner_buf_ d, 4 * buf_size)].

(** The regions [rs], of elements of [esz] bytes, lie one after the other
    from address [from] up to address [to], with no gap. *)
Fixpoint contiguous (esz : Z) (from : ptr) (rs : list (ptr * Z)) (to : ptr) : Prop :=
  match rs with
  | [] => from = to
  | (p, n) :: rs' => p = from /\ contiguous esz (from + n * esz) rs' to
  end.

(** The byte ranges of two regions do not meet. *)
Definition disjoint (esz : Z) (r1 r2 : ptr * Z) : Prop :=
  r1.1 + r1.2 * esz <= r2.1 \/ r2.1 + r2.2 * esz <= r1.1.

(** Device memory that holds pointers, by address. *)
Fixpoint write_ptrs (dst : ptr) (src : list ptr) (n : nat) (mem : gmap Z ptr)
  : gmap Z ptr :=
  match n, src with
  | S n', p :: src' => write_ptrs (pptr_add dst 1) src' n' (<[dst := p]> mem)
  | _, _ => mem
  end.

(** The effect of a runtime call on that memory, once the stream it was
    queued on has run it. *)
Definition run_runtime_call (c : runtime_call) (mem : gmap Z ptr) : gmap Z ptr :=
  match c with
  | cudaMemcpyAsync dst src count cudaMemcpyHostToDevice _ =>
      write_ptrs dst src (Z.to_nat (count / sizeof_ptr)) mem
  | _ => mem
  end.

(** [a[i]] for a device array of pointers. *)
Definition pptr_index (mem : gmap Z ptr) (a : ptr) (i : Z) : option ptr :=
  mem !! pptr_add a i.

(** ** The kernels [forward] calls *)

Inductive ActivationType := RELU | GELU.

(** A call of one of the member functions declared after [forward], with
    its arguments, or one of the two calls of the debug build's check
    [cudaDeviceSynchronize(); check_cuda_error(cudaGetLastError());]. *)
Inductive call :=
| decoder_norm1 (from_tensor gamma beta norm_from_tensor_buf : ptr) (m n : Z)
| masked_multi_head_attention
    (from_tensor key_cache value_cache decoder_output : ptr) (step : Z)
| cross_multi_head_attention
    (from_tensor memory_tensor key_mem_cache value_mem_cache decoder_output
       memory_sequence_length : ptr) (max_seq_len step : Z)
| ffn (input ffn_inner output : ptr) (m inner_size n : Z)
    (activation_type : ActivationType)
| decoder_norm2 (from_tensor gamma beta bias output norm_output_buf : ptr) (m n : Z)
| add_bias_input (output input : ptr) (m n : Z)
| cudaDeviceSynchronize
| check_cuda_error_cudaGetLastError.

Definition is_kernel (c : call) : bool :=
  match c with
  | cudaDeviceSynchronize | check_cuda_error_cudaGetLastError => false
  | _ => true
  end.

(** C++ exceptions, by dynamic type: exactly [std::runtime_error], a class
    derived from it, or a class that is not a [std::runtime_error].  A
    [std::runtime_error] holds the message it was built with and returns
    it from [what()]; an object of a derived class holds such a message in
    its base ([base_what]) and answers [what()] through the virtual
    function, which the class may override ([what]). *)
Inductive exception :=
| runtime_error (what : string)
| runtime_error_derived (class_name base_what what : string)
| other_exception (class_name what : string).

Definition is_runtime_error (e : exception) : bool :=
  match e with other_exception _ _ => false | _ => true end.

(** What [what()] returns on the exception. *)
Definition what_of (e : exception) : string :=
  match e with
  | runtime_error w | runtime_error_derived _ _ w | other_exception _ w => w
  end.

(** The message that the [std::runtime_error] part of the exception
    holds: the one the copy constructor of [std::runtime_error] copies. *)
Definition base_what_of (e : exception) : string :=
  match e with
  | runtime_error w | runtime_error_derived _ w _ | other_exception _ w => w
  end.

(** Modelled from the spec: the device error check [check_cuda_error] is
    declared in [common.h], which is not among the sources.  A device
    execution error reaches [forward] as a thrown error; it is the
    [std::runtime_error] that the catch clause of [forward] expects. *)
Definition device_execution_error (what : string) : exception := runtime_error what.

(** How a call ends: it returns, or it throws; either way it leaves a
    world behind. *)
Inductive outcome (W : Type) :=
| completes (w : W)
| throws (e : exception) (w : W).
Arguments completes {W} w.
Arguments throws {W} e w.

Definition world_after {W : Type} (o : outcome W) : W :=
  match o with completes w | throws _ w => w end.

(** The state [forward] runs in: the world the kernels act on, and the
    calls issued so far, oldest first. *)
Record machine (W : Type) := { world : W; issued : list call }.
Arguments world {W} _.
Arguments issued {W} _.

Inductive completion (A : Type) :=
| normal (a : A)
| abrupt (e : exception).
Arguments normal {A} a.
Arguments abrupt {A} e.

Definition M (W A : Type) : Type := machine W -> completion A * machine W.

Global Instance M_ret {W} : MRet (M W) := fun A a s => (normal a, s).

Global Instance M_bind {W} : MBind (M W) := fun A B f c s =>
  match c s with
  | (normal a, s') => f a s'
  | (abrupt e, s') => (abrupt e, s')
  end.

Definition throw {W A} (e : exception) : M W A := fun s => (abrupt e, s).

(** [try { body } catch (std::runtime_error &error) { handler }]: the
    clause catches the exceptions that are a [std::runtime_error]; any
    other keeps propagating. *)
Definition try_catch_runtime_error {W A} (body : M W A)
    (handler : exception -> M W A) : M W A := fun s =>
  match body s with
  | (normal a, s') => (normal a, s')
  | (abrupt e, s') =>
      if is_runtime_error e then handler e s' else (abrupt e, s')
  end.

(** [throw error;] for [error] of static type [std::runtime_error]: the
    exception thrown is a copy of the operand at its static type, made by
    the copy constructor of [std::runtime_error] from the base of the
    operand. *)
Definition throw_copy {W A} (error : exception) : M W A :=
  throw (runtime_error (base_what_of error)).

Section Forward.

Context {W : Type}.

(** The behaviour of the kernels and of the CUDA runtime. *)
Variable exec : call -> W -> outcome W.

(** [NDEBUG] is defined: the build leaves the debug checks out. *)
Variable NDEBUG : bool.

Definition invoke (c : call) : M W unit := fun s =>
  let s' w := {| world := w; issued := issued s ++ [c] |} in
  match exec c (world s) with
  | completes w => (normal tt, s' w)
  | throws e w => (abrupt e, s' w)
  end.

(** [print_tensor] and [print_tensor_int]: both start with [return;], so
    the dump that follows in their bodies is never run. *)
Definition print_tensor (dim : Z) (tensor : ptr) (output : string) : M W unit :=
  mret tt.

Definition print_tensor_int (dim : Z) (tensor : ptr) (output : string) : M W unit :=
  mret tt.

(** [#ifndef NDEBUG cudaDeviceSynchronize(); check_cuda_error(cudaGetLastError()); #endif] *)
Definition debug_check : M W unit :=
  if NDEBUG then mret tt
  else invoke cudaDeviceSynchronize ;; invoke check_cuda_error_cudaGetLastError.

Local Open Scope string_scope.
Local Notation "a *i b" := (Int.mul a b) (at level 40, left associativity).

(** [OpenDecoder::forward] *)
Definition forward (d : OpenDecoder)
    (from_tensor memory_tensor key_cache_ value_cache_ key_mem_cache_
       value_mem_cache_ memory_sequence_length decoder_output : ptr)
    (step : Z) (is_cross_attention : bool) : M W unit :=
  let m := batch_size_ d in
  let n := hidden_units_ d in
  let one_row := batch_size_ d *i 1 *i head_num_ d *i size_per_head_ d in
  let hidden := head_num_ d *i size_per_head_ d in
  let all_rows := batch_size_ d *i max_seq_len_ d *i head_num_ d *i size_per_head_ d in
  try_catch_runtime_error
    (print_tensor one_row from_tensor "cpp_from_tensor.txt" ;;
     invoke (decoder_norm1 from_tensor
               (gamma (self_layernorm (param_ d)))
               (beta (self_layernorm (param_ d)))
               (norm_from_tensor_buf_ d) m n) ;;
     print_tensor hidden (gamma (self_layernorm (param_ d))) "cpp_norm1_gamma.txt" ;;
     print_tensor hidden (beta (self_layernorm (param_ d))) "cpp_norm1_beta.txt" ;;
     print_tensor one_row (norm_from_tensor_buf_ d)
       "cpp_from_tensor_after_decoder_norm1.txt" ;;
     debug_check ;;
     invoke (masked_multi_head_attention (norm_from_tensor_buf_ d)
               key_cache_ value_cache_ (masked_output_buf_ d) step) ;;
     print_tensor one_row (masked_output_buf_ d) "cpp_masked_multi_head_attention.txt" ;;
     debug_check ;;
     (if is_cross_attention then
        invoke (decoder_norm2 from_tensor
                  (gamma (cross_layernorm (param_ d)))
                  (beta (cross_layernorm (param_ d)))
                  (bias (attention_output_weight (self_attention (param_ d))))
                  (masked_output_buf_ d)
                  (norm_masked_output_buf_ d) m n) ;;
        print_tensor one_row (norm_masked_output_buf_ d)
          "cpp_norm_masked_output_buf_decoder_norm2.txt" ;;
        debug_check ;;
        print_tensor all_rows key_mem_cache_ "cpp_key_mem_cache_before_cross.txt" ;;
        print_tensor all_rows value_mem_cache_ "cpp_value_mem_cache_before_cross.txt" ;;
        invoke (cross_multi_head_attention (norm_masked_output_buf_ d) memory_tensor
                  key_mem_cache_ value_mem_cache_ (cross_output_buf_ d)
                  memory_sequence_length (max_seq_len_ d) step) ;;
        print_tensor_int (batch_size_ d) memory_sequence_length
          "cpp_memory_sequence_length.txt" ;;
        print_tensor all_rows (cross_output_buf_ d) "cpp_memory_tensor.txt" ;;
        print_tensor all_rows key_mem_cache_ "cpp_key_mem_cache.txt" ;;
        print_tensor all_rows value_mem_cache_ "cpp_value_mem_cache.txt" ;;
        print_tensor one_row (cross_output_buf_ d) "cpp_cross_output_buf.txt" ;;
        debug_check ;;
        print_tensor hidden (gamma (ffn_layernorm (param_ d))) "cpp_norm3_gamma.txt" ;;
        print_tensor hidden (beta (ffn_layernorm (param_ d))) "cpp_norm3_beta.txt" ;;
        print_tensor hidden
          (bias (attention_output_weight (cross_attention (param_ d))))
          "cpp_cross_attention.attention_output_weight.bias.txt" ;;
        invoke (decoder_norm2 (masked_output_buf_ d)
                  (gamma (ffn_layernorm (param_ d)))
                  (beta (ffn_layernorm (param_ d)))
                  (bias (attention_output_weight (cross_attention (param_ d))))
                  (cross_output_buf_ d)
                  (norm_cross_output_buf_ d) m n) ;;
        print_tensor one_row (masked_output_buf_ d)
          "cpp_masked_multi_head_attention_norm3.txt" ;;
        print_tensor one_row (cross_output_buf_ d) "cpp_cross_output_buf_norm3.txt" ;;
        print_tensor one_row (norm_cross_output_buf_ d)
          "cpp_norm_cross_output_buf_norm3.txt" ;;
        debug_check ;;
        print_tensor one_row decoder_output "cpp_decoder_output_before.txt" ;;
        invoke (ffn (norm_cross_output_buf_ d) (ffn_inner_buf_ d) decoder_output
                  m (4 *i n) n RELU) ;;
        print_tensor one_row decoder_output "cpp_decoder_output.txt" ;;
        debug_check ;;
        invoke (add_bias_input decoder_output (cross_output_buf_ d) m n) ;;
        print_tensor one_row (cross_output_buf_ d) "cpp_cross_output_buf_last.txt"
      else
        invoke (decoder_norm2 from_tensor
                  (gamma (ffn_layernorm (param_ d)))
                  (beta (ffn_layernorm (param_ d)))
                  (bias (attention_output_weight (self_attention (param_ d))))
                  (masked_output_buf_ d)
                  (norm_masked_output_buf_ d) m n) ;;
        debug_check ;;
        invoke (ffn (norm_masked_output_buf_ d) (ffn_inner_buf_ d) decoder_output
                  m (4 *i n) n GELU) ;;
        debug_check ;;
        invoke (add_bias_input decoder_output (masked_output_buf_ d) m n)) ;;
     debug_check)
    (fun error => throw_copy error).

(** Running a list of calls in order, up to the first that throws. *)
Fixpoint run_calls (cs : list call) : M W unit :=
  match cs with
  | [] => mret tt
  | c :: cs' => fun s =>
      match invoke c s with
      | (normal _, s') => run_calls cs' s'
      | (abrupt e, s') => (abrupt e, s')
      end
  end.

End Forward.

(** The calls a step issues when none throws: the kernels, each followed
    by the two calls of the debug check unless [NDEBUG]. *)
Definition debug_calls (NDEBUG : bool) : list call :=
  if NDEBUG then [] else [cudaDeviceSynchronize; check_cuda_error_cudaGetLastError].

Definition self_only_kernels (d : OpenDecoder)
    (from_tensor key_cache_ value_cache_ decoder_output : ptr) (step : Z) : list call :=
  let m := batch_size_ d in
  let n := hidden_units_ d in
  [decoder_norm1 from_tensor (gamma (self_layernorm (param_ d)))
     (beta (self_layernorm (param_ d))) (norm_from_tensor_buf_ d) m n;
   masked_multi_head_attention (norm_from_tensor_buf_ d) key_cache_ value_cache_
     (masked_output_buf_ d) step;
   decoder_norm2 from_tensor (gamma (ffn_layernorm (param_ d)))
     (beta (ffn_layernorm (param_ d)))
     (bias (attention_output_weight (self_attention (param_ d))))
     (masked_output_buf_ d) (norm_masked_output_buf_ d) m n;
   ffn (norm_masked_output_buf_ d) (ffn_inner_buf_ d) decoder_output
     m (Int.mul 4 n) n GELU;
   add_bias_input decoder_output (masked_output_buf_ d) m n].

Definition cross_kernels (d : OpenDecoder)
    (from_tensor memory_tensor key_cache_ value_cache_ key_mem_cache_
       value_mem_cache_ memory_sequence_length decoder_output : ptr)
    (step : Z) : list call :=
  let m := batch_size_ d in
  let n := hidden_units_ d in
  [decoder_norm1 from_tensor (gamma (self_layernorm (param_ d)))
     (beta (self_layernorm (param_ d))) (norm_from_tensor_buf_ d) m n;
   masked_multi_head_attention (norm_from_tensor_buf_ d) key_cache_ value_cache_
     (masked_output_buf_ d) step;
   decoder_norm2 from_tensor (gamma (cross_layernorm (param_ d)))
     (beta (cross_layernorm (param_ d)))
     (bias (attention_output_weight (self_attention (param_ d))))
     (masked_output_buf_ d) (norm_masked_output_buf_ d) m n;
   cross_multi_head_attention (norm_masked_output_buf_ d) memory_tensor
     key_mem_cache_ value_mem_cache_ (cross_output_buf_ d)
     memory_sequence_length (max_seq_len_ d) step;
   decoder_norm2 (masked_output_buf_ d) (gamma (ffn_layernorm (param_ d)))
     (beta (ffn_layernorm (param_ d)))
     (bias (attention_output_weight (cross_attention (param_ d))))
     (cross_output_buf_ d) (norm_cross_output_buf_ d) m n;
   ffn (norm_cross_output_buf_ d) (ffn_inner_buf_ d) decoder_output
     m (Int.mul 4 n) n RELU;
   add_bias_input decoder_output (cross_output_buf_ d) m n].

(** A kernel list with the calls of the debug check after each kernel. *)
Definition with_debug_checks (NDEBUG : bool) (ks : list call) : list call :=
  flat_map (fun k => k :: debug_calls NDEBUG) ks.

Definition forward_calls (NDEBUG : bool) (d : OpenDecoder)
    (from_tensor memory_tensor key_cache_ value_cache_ key_mem_cache_
       value_mem_cache_ memory_sequence_length decoder_output : ptr)
    (step : Z) (is_cross_attention : bool) : list call :=
  with_debug_checks NDEBUG
    (if is_cross_attention then
       cross_kernels d from_tensor memory_tensor key_cache_ value_cache_
         key_mem_cache_ value_mem_cache_ memory_sequence_length decoder_output step
     else
       self_only_kernels d from_tensor key_cache_ value_cache_ decoder_output step).

(** What the catch clause of [forward] makes of an exception that leaves
    its try block. *)
Definition rethrown (e : exception) : exception :=
  if is_runtime_error e then runtime_error (base_what_of e) else e.

(** ** What the kernels may write *)

(** The buffers the two attention kernels keep intermediate results in
    (see the comments of [initialize] on [query_buf_] and [context_buf_];
    [key_buf_] and [value_buf_] are the other two targets of the fused
    projection). *)
Definition attention_scratch (d : OpenDecoder) : list ptr :=
  [query_buf_ d; key_buf_ d; value_buf_ d; context_buf_ d].

(** The buffers a call may write: those it receives through a pointer to
    non-const, and the scratch buffers of the object. *)
Definition may_write (d : OpenDecoder) (c : call) : list ptr :=
  match c with
  | decoder_norm1 _ _ _ norm_from_tensor_buf _ _ => [norm_from_tensor_buf]
  | masked_multi_head_attention _ key_cache value_cache decoder_output _ =>
      key_cache :: value_cache :: decoder_output :: attention_scratch d
  | cross_multi_head_attention _ _ key_mem_cache value_mem_cache decoder_output _ _ _ =>
      key_mem_cache :: value_mem_cache :: decoder_output :: attention_scratch d
  | ffn _ ffn_inner output _ _ _ _ => [ffn_inner; output]
  | decoder_norm2 _ _ _ _ output norm_output_buf _ _ => [output; norm_output_buf]
  | add_bias_input output _ _ _ => [output]
  | cudaDeviceSynchronize | check_cuda_error_cudaGetLastError => []
  end.

(** Device memory as the kernels see it: what each buffer holds. *)
Definition respects_footprint {tensor : Type} (d : OpenDecoder)
    (exec : call -> (ptr -> tensor) -> outcome (ptr -> tensor)) : Prop :=
  forall c s p, p ∉ may_write d c -> world_after (exec c s) p = s p.

(** The buffers a self-only step hands to its kernels for writing. *)
Definition self_only_written (d : OpenDecoder)
    (key_cache_ value_cache_ decoder_output : ptr) : list ptr :=
  [norm_from_tensor_buf_ d; key_cache_; value_cache_; masked_output_buf_ d;
   norm_masked_output_buf_ d; ffn_inner_buf_ d; decoder_output]
  ++ attention_scratch d.

(** ** The contracts of the kernels *)

Section Collaborators.

Context {tensor : Type}.

(** Modelled from the spec: the bodies of the kernels are in
    [open_decoder.cu], which is not among the sources.  These are the
    numeric functions of the spec's table of external collaborators:
    elementwise addition; LayerNorm of a tensor with a scale and a bias;
    masked attention from the normalized input, the two self caches and the
    step index to the attention output and the two caches as it leaves
    them; cross attention from the query, the encoder memory, the two
    memory caches, the memory lengths, the maximal length and the step
    index, likewise; the feed-forward block from its input and activation
    kind to its output and what it leaves in its inner buffer.  [scratch]
    is what a call leaves at a scratch buffer. *)
Record collaborators := {
  tensor_add : tensor -> tensor -> tensor;
  LayerNorm : tensor -> tensor -> tensor -> tensor;
  MaskedAttention : tensor -> tensor -> tensor -> Z -> tensor * tensor * tensor;
  CrossAttention :
    tensor -> tensor -> tensor -> tensor -> tensor -> Z -> Z -> tensor * tensor * tensor;
  FeedForward : tensor -> ActivationType -> tensor * tensor;
  scratch : call -> (ptr -> tensor) -> ptr -> tensor }.

Variable K : collaborators.
Variable d : OpenDecoder.

Definition write_scratch (c : call) (s0 s : ptr -> tensor) : ptr -> tensor :=
  <[query_buf_ d := scratch K c s0 (query_buf_ d)]>
    (<[key_buf_ d := scratch K c s0 (key_buf_ d)]>
       (<[value_buf_ d := scratch K c s0 (value_buf_ d)]>
          (<[context_buf_ d := scratch K c s0 (context_buf_ d)]> s))).

(** Modelled from the spec: the effect of each kernel on device memory,
    after the contracts of the spec's collaborator table.  [decoder_norm2]
    is the fused normalize-and-residual: it forms
    [summed = base + summand + extra-bias] from its first argument (the
    base), its [output] argument (the summand) and [bias], leaves [summed]
    in [output] and its normalization in [norm_output_buf] (the comments in
    [forward] say the same: [masked_output_buf_ + from_tensor ->
    masked_output_buf_], [norm(masked_output_buf_) ->
    norm_masked_output_buf_]).  [add_bias_input] is [output += residual]. *)
Definition kernel_step (c : call) (s : ptr -> tensor) : ptr -> tensor :=
  match c with
  | decoder_norm1 from_tensor gamma beta norm_from_tensor_buf _ _ =>
      <[norm_from_tensor_buf := LayerNorm K (s from_tensor) (s gamma) (s beta)]> s
  | masked_multi_head_attention from_tensor key_cache value_cache decoder_output step =>
      let r := MaskedAttention K (s from_tensor) (s key_cache) (s value_cache) step in
      <[decoder_output := r.1.1]>
        (<[key_cache := r.1.2]> (<[value_cache := r.2]> (write_scratch c s s)))
  | cross_multi_head_attention from_tensor memory_tensor key_mem_cache value_mem_cache
      decoder_output memory_sequence_length max_seq_len step =>
      let r := CrossAttention K (s from_tensor) (s memory_tensor) (s key_mem_cache)
                 (s value_mem_cache) (s memory_sequence_length) max_seq_len step in
      <[decoder_output := r.1.1]>
        (<[key_mem_cache := r.1.2]> (<[value_mem_cache := r.2]> (write_scratch c s s)))
  | ffn input ffn_inner output _ _ _ activation_type =>
      let r := FeedForward K (s input) activation_type in
      <[output := r.1]> (<[ffn_inner := r.2]> s)
  | decoder_norm2 from_tensor gamma beta bias output norm_output_buf _ _ =>
      let summed := tensor_add K (tensor_add K (s from_tensor) (s output)) (s bias) in
      <[norm_output_buf := LayerNorm K summed (s gamma) (s beta)]>
        (<[output := summed]> s)
  | add_bias_input output input _ _ =>
      <[output := tensor_add K (s output) (s input)]> s
  | cudaDeviceSynchronize | check_cuda_error_cudaGetLastError => s
  end.

Definition exec_kernels (c : call) (s : ptr -> tensor) : outcome (ptr -> tensor) :=
  completes (kernel_step c s).

(** The value a self+cross step leaves in [decoder_output], as a function
    of what device memory [s] holds when the step starts.  [residual] says
    which value the last kernel adds onto the output of the feed-forward
    block, given the contents of the masked-output region after the first
    norm2, the output of cross attention and the cross-attention output
    bias. *)
Definition cross_variant_value (residual : tensor -> tensor -> tensor -> tensor)
    (s : ptr -> tensor)
    (from_tensor memory_tensor key_cache_ value_cache_ key_mem_cache_
       value_mem_cache_ memory_sequence_length : ptr) (step : Z) : tensor :=
  let p := param_ d in
  let add := tensor_add K in
  let norm_from := LayerNorm K (s from_tensor)
                     (s (gamma (self_layernorm p))) (s (beta (self_layernorm p))) in
  let masked := (MaskedAttention K norm_from (s key_cache_) (s value_cache_) step).1.1 in
  let masked_sum :=
    add (add (s from_tensor) masked)
        (s (bias (attention_output_weight (self_attention p)))) in
  let norm_masked := LayerNorm K masked_sum
                       (s (gamma (cross_layernorm p))) (s (beta (cross_layernorm p))) in
  let cross := (CrossAttention K norm_masked (s memory_tensor) (s key_mem_cache_)
                  (s value_mem_cache_) (s memory_sequence_length)
                  (max_seq_len_ d) step).1.1 in
  let cross_bias := s (bias (attention_output_weight (cross_attention p))) in
  let cross_sum := add (add masked_sum cross) cross_bias in
  let norm_cross := LayerNorm K cross_sum
                      (s (gamma (ffn_layernorm p))) (s (beta (ffn_layernorm p))) in
  add (FeedForward K norm_cross RELU).1 (residual masked_sum cross cross_bias).

(** The value a self-only step leaves in [decoder_output]: the output of
    the feed-forward block plus the contents of the masked-output region,
    which norm2 left as [input + masked-output + self-attention output
    bias]. *)
Definition self_only_output (s : ptr -> tensor)
    (from_tensor key_cache_ value_cache_ : ptr) (step : Z) : tensor :=
  let p := param_ d in
  let add := tensor_add K in
  let norm_from := LayerNorm K (s from_tensor)
                     (s (gamma (self_layernorm p))) (s (beta (self_layernorm p))) in
  let masked := (MaskedAttention K norm_from (s key_cache_) (s value_cache_) step).1.1 in
  let masked_sum :=
    add (add (s from_tensor) masked)
        (s (bias (attention_output_weight (self_attention p)))) in
  let norm_masked := LayerNorm K masked_sum
                       (s (gamma (ffn_layernorm p))) (s (beta (ffn_layernorm p))) in
  add (FeedForward K norm_masked GELU).1 masked_sum.

(** The residual the step adds: the contents of the cross-output region,
    which the second norm2 left as
    [masked-output region + cross-output + cross-attention output bias]. *)
Definition cross_variant_output :=
  cross_variant_value (fun masked_sum cross cross_bias =>
    tensor_add K (tensor_add K masked_sum cross) cross_bias).

(** The residual as the specification words it: cross-output plus the
    cross-attention output bias. *)
Definition specified_cross_variant_output :=
  cross_variant_value (fun _ cross cross_bias => tensor_add K cross cross_bias).

(** Modelled from the spec: the value of a self-only step with the
    residual as the specification words it, the step's masked output with
    the self-attention output bias applied. *)
Definition specified_self_only_output (s : ptr -> tensor)
    (from_tensor key_cache_ value_cache_ : ptr) (step : Z) : tensor :=
  let p := param_ d in
  let add := tensor_add K in
  let norm_from := LayerNorm K (s from_tensor)
                     (s (gamma (self_layernorm p))) (s (beta (self_layernorm p))) in
  let masked := (MaskedAttention K norm_from (s key_cache_) (s value_cache_) step).1.1 in
  let self_bias := s (bias (attention_output_weight (self_attention p))) in
  let masked_sum := add (add (s from_tensor) masked) self_bias in
  let norm_masked := LayerNorm K masked_sum
                       (s (gamma (ffn_layernorm p))) (s (beta (ffn_layernorm p))) in
  add (FeedForward K norm_masked GELU).1 (add masked self_bias).

End Collaborators.

Arguments collaborators : clear implicits.

(** The buffers a self+cross step reads but never writes, and those it
    writes. *)
Definition cross_read_only (d : OpenDecoder)
    (from_tensor memory_tensor memory_sequence_length : ptr) : list ptr :=
  let p := param_ d in
  [from_tensor; memory_tensor; memory_sequence_length;
   gamma (self_layernorm p); beta (self_layernorm p);
   gamma (cross_layernorm p); beta (cross_layernorm p);
   gamma (ffn_layernorm p); beta (ffn_layernorm p);
   bias (attention_output_weight (self_attention p));
   bias (attention_output_weight (cross_attention p))].

(** The buffers a self-only step reads but never writes. *)
Definition self_only_read_only (d : OpenDecoder) (from_tensor : ptr) : list ptr :=
  let p := param_ d in
  [from_tensor;
   gamma (self_layernorm p); beta (self_layernorm p);
   gamma (ffn_layernorm p); beta (ffn_layernorm p);
   bias (attention_output_weight (self_attention p))].

Definition cross_written (d : OpenDecoder)
    (key_cache_ value_cache_ key_mem_cache_ value_mem_cache_ decoder_output : ptr)
  : list ptr :=
  [norm_from_tensor_buf_ d; query_buf_ d; key_buf_ d; value_buf_ d; context_buf_ d;
   masked_output_buf_ d; norm_masked_output_buf_ d; cross_output_buf_ d;
   norm_cross_output_buf_ d; ffn_inner_buf_ d;
   key_cache_; value_cache_; key_mem_cache_; value_mem_cache_; decoder_output].

(** ** Concrete objects for the examples *)

Definition example_param : DecoderInitParam :=
  {| self_layernorm := {| gamma := 64; beta := 68 |};
     self_attention :=
       {| query_weight := {| kernel := 72; bias := 76 |};
          key_weight := {| kernel := 80; bias := 84 |};
          value_weight := {| kernel := 88; bias := 92 |};
          attention_output_weight := {| kernel := 96; bias := 100 |} |};
     cross_layernorm := {| gamma := 104; beta := 108 |};
     cross_attention :=
       {| query_weight := {| kernel := 112; bias := 116 |};
          key_weight := {| kernel := 120; bias := 124 |};
          value_weight := {| kernel := 128; bias := 132 |};
          attention_output_weight := {| kernel := 136; bias := 140 |} |};
     ffn_layernorm := {| gamma := 144; beta := 148 |};
     ffn_weight :=
       {| intermediate_weight := {| kernel := 152; bias := 156 |};
          output_weight := {| kernel := 160; bias := 164 |} |};
     cublas_handle := 1;
     stream := 2 |}.

Definition example_junk : indeterminate :=
  {| junk_param := example_param;
     junk_int := fun i => 1000 + Z.of_nat i;
     junk_ptr := fun _ => 0;
     junk_float := fun _ => S754_nan;
     junk_bool := true |}.

(** A decoder as the constructor leaves it when there is no tuning file,
    for batch size [b] and [head_num * size_per_head] hidden units. *)
Definition example_decoder (op : OperationType) (b head_num size_per_head : Z)
  : OpenDecoder :=
  construct op example_junk (fill_default (default_algo op) [0; 0; 0; 0; 0]) false
    b 8 head_num size_per_head 16.

(** The same with its workspace bound at address [4096]. *)
Definition bound_decoder (op : OperationType) (b head_num size_per_head : Z)
  : OpenDecoder :=
  (initialize (example_decoder op b head_num size_per_head) example_param 4096).1.

(** A tuning file whose float after the first id is [1] and whose last
    float is [5]. *)
Definition example_config (first last : Z) : list field :=
  [int_literal 3; real_literal (float_of_int 2);
   int_literal 4; real_literal (float_of_int first);
   int_literal 5; real_literal (float_of_int 2);
   int_literal 6; real_literal (float_of_int 2);
   int_literal 7; real_literal (float_of_int 2);
   int_literal 8; real_literal (float_of_int last)].

(** Collaborators over integers, each integer standing for a tensor of
    one element: an affine LayerNorm, attention that copies its query, a
    feed-forward block that applies its activation. *)
Definition integer_collaborators : collaborators Z :=
  {| tensor_add := Z.add;
     LayerNorm := fun x scale shift => scale * x + shift;
     MaskedAttention := fun x key_cache value_cache _ => (x, key_cache, value_cache);
     CrossAttention := fun q _ key_mem_cache value_mem_cache _ _ _ =>
                         (q, key_mem_cache, value_mem_cache);
     FeedForward := fun x a => (match a with RELU => Z.max 0 x | GELU => x end, x);
     scratch := fun _ _ _ => 0 |}.

(** Device memory with [1] in every buffer. *)
Definition ones : ptr -> Z := fun _ => 1.

(** A runtime in which every call returns and changes nothing. *)
Definition idle_exec (c : call) (w : unit) : outcome unit := completes w.

(** A runtime in which the fused normalize-and-residual kernel fails. *)
Definition failing_exec (c : call) (w : unit) : outcome unit :=
  match c with
  | decoder_norm2 _ _ _ _ _ _ _ _ =>
      throws (device_execution_error "CUDA runtime error") w
  | _ => completes w
  end.

(** ** Definitions for the further properties *)

(** An id outside the range of the precision. *)
(** What the constructor sends to standard output: the call trace of a
    debug build and its calls of [printf]. *)
Inductive output :=
| PRINT_FUNC_NAME_
| printed (c : printf_call).

(** [#ifndef NDEBUG PRINT_FUNC_NAME_(); #endif] *)
Definition debug_trace (NDEBUG : bool) : list output :=
  if NDEBUG then [] else [PRINT_FUNC_NAME_].

(** [OpenDecoder::OpenDecoder] in a build with or without [NDEBUG]: the
    call trace, then the body. *)
Definition OpenDecoder_ctor_in_build (NDEBUG : bool) (op : OperationType)
    (u : indeterminate) (file : option (list field))
    (batch_size seq_len head_num size_per_head memory_hidden_units : Z)
  : list output * termination OpenDecoder :=
  let r := OpenDecoder_ctor op u file
             batch_size seq_len head_num size_per_head memory_hidden_units in
  (debug_trace NDEBUG ++ map printed r.1, r.2).

(** The format of the line that reports an id outside the range. *)
Definition error_format (op : OperationType) : string :=
  match op with
  | FP32 => "[ERROR] cuBLAS Algorithm %d is not used in FP32. \n"
  | FP16 => "[ERROR] cuBLAS Algorithm %d is not used in FP16. \n"
  end.

Definition invalid_algo (op : OperationType) (x : Z) : bool := negb (valid_algo op x).

(** The ten tensor region pointers of the object, in the order in which
    [initialize] binds them. *)
Definition workspace_pointers (d : OpenDecoder) : list ptr :=
  [norm_from_tensor_buf_ d; query_buf_ d; key_buf_ d; value_buf_ d; context_buf_ d;
   masked_output_buf_ d; norm_masked_output_buf_ d; cross_output_buf_ d;
   norm_cross_output_buf_ d; ffn_inner_buf_ d].

(** The address just past the last slot of the last pointer array. *)
Definition workspace_end (d : OpenDecoder) : ptr := pptr_add (qkv_buf_ d) 3.

(** The arguments a kernel is declared to take through a pointer to const,
    and those it takes through a pointer to non-const (the declarations
    that follow [forward]). *)
Definition const_args (c : call) : list ptr :=
  match c with
  | decoder_norm1 from_tensor gamma beta _ _ _ => [from_tensor; gamma; beta]
  | masked_multi_head_attention from_tensor _ _ _ _ => [from_tensor]
  | cross_multi_head_attention from_tensor memory_tensor _ _ _ memory_sequence_length _ _ =>
      [from_tensor; memory_tensor; memory_sequence_length]
  | ffn input _ _ _ _ _ _ => [input]
  | decoder_norm2 from_tensor gamma beta bias _ _ _ _ => [from_tensor; gamma; beta; bias]
  | add_bias_input _ input _ _ => [input]
  | cudaDeviceSynchronize | check_cuda_error_cudaGetLastError => []
  end.

Definition mutable_args (c : call) : list ptr :=
  match c with
  | decoder_norm1 _ _ _ norm_from_tensor_buf _ _ => [norm_from_tensor_buf]
  | masked_multi_head_attention _ key_cache value_cache decoder_output _ =>
      [key_cache; value_cache; decoder_output]
  | cross_multi_head_attention _ _ key_mem_cache value_mem_cache decoder_output _ _ _ =>
      [key_mem_cache; value_mem_cache; decoder_output]
  | ffn _ ffn_inner output _ _ _ _ => [ffn_inner; output]
  | decoder_norm2 _ _ _ _ output norm_output_buf _ _ => [output; norm_output_buf]
  | add_bias_input output _ _ _ => [output]
  | cudaDeviceSynchronize | check_cuda_error_cudaGetLastError => []
  end.

(** Every buffer of [ws] that a call of [cs] takes through a pointer to
    const was handed, through a pointer to non-const, to an earlier call
    of [cs] or is among [seen]. *)
Fixpoint staged (ws seen : list ptr) (cs : list call) : Prop :=
  match cs with
  | [] => True
  | c :: cs' =>
      Forall (fun p => p ∈ ws -> p ∈ seen) (const_args c) /\
      staged ws (mutable_args c ++ seen) cs'
  end.

(** The buffers the caller and the weights supply to a step for reading. *)
Definition supplied_read_only (d : OpenDecoder)
    (from_tensor memory_tensor memory_sequence_length : ptr) : list ptr :=
  cross_read_only d from_tensor memory_tensor memory_sequence_length.

(** The buffers a step hands to its kernels for writing, by variant. *)
Definition step_written (d : OpenDecoder)
    (key_cache_ value_cache_ key_mem_cache_ value_mem_cache_ decoder_output : ptr)
    (is_cross_attention : bool) : list ptr :=
  if is_cross_attention then
    cross_written d key_cache_ value_cache_ key_mem_cache_ value_mem_cache_ decoder_output
  else self_only_written d key_cache_ value_cache_ decoder_output.

(** A runtime in which the feed-forward block throws an exception of a
    class derived from [std::runtime_error] that overrides [what()]. *)
Definition overriding_exec (c : call) (w : unit) : outcome unit :=
  match c with
  | ffn _ _ _ _ _ _ _ =>
      throws (runtime_error_derived "std::filesystem::filesystem_error"
                "cannot open" "filesystem error: cannot open [ffn.bin]") w
  | _ => completes w
  end.

(** The two states hold the same world and the same kernels in their logs. *)
Definition same_but_checks {W : Type} (s1 s2 : machine W) : Prop :=
  world s1 = world s2 /\
  List.filter is_kernel (issued s1) = List.filter is_kernel (issued s2).

(** * Properties *)

(** ** Machine integers *)

Lemma wrap_mod (z : Z) : Int.wrap z mod Int.modulus = z mod Int.modulus.
Proof.
  unfold Int.wrap, Int.modulus.
  rewrite Zminus_mod_idemp_l. f_equal. lia.
Qed.

Lemma wrap_congr (a b : Z) :
  a mod Int.modulus = b mod Int.modulus -> Int.wrap a = Int.wrap b.
Proof.
  intros H. unfold Int.wrap.
  rewrite (Z.add_mod a), (Z.add_mod b), H by (unfold Int.modulus; lia).
  reflexivity.
Qed.

Lemma wrap_in_range (z : Z) : Int.in_range z -> Int.wrap z = z.
Proof.
  unfold Int.in_range, Int.min_signed, Int.max_signed, Int.wrap, Int.modulus.
  intros H. rewrite Z.mod_small by lia. lia.
Qed.

Lemma wrap_range (z : Z) : Int.in_range (Int.wrap z).
Proof.
  unfold Int.in_range, Int.min_signed, Int.max_signed, Int.wrap, Int.modulus.
  pose proof (Z.mod_pos_bound (z + 2 ^ 31) (2 ^ 32)). lia.
Qed.

Lemma size_t_mod_int (z : Z) : SizeT.of_Z z mod Int.modulus = z mod Int.modulus.
Proof.
  unfold SizeT.of_Z, SizeT.modulus, Int.modulus.
  apply Z.mod_mod_divide. exists (2 ^ 32). reflexivity.
Qed.

Lemma mul_in_range (a b : Z) : Int.in_range (a * b) -> Int.mul a b = a * b.
Proof. apply wrap_in_range. Qed.

(** ** The workspace sizing query *)

Lemma getWorkspaceSize_wrap (d : OpenDecoder) :
  getWorkspaceSize d
  = Int.wrap (13 * (batch_size_ d * hidden_units_ d) + 9 * sizeof_ptr).
Proof.
  unfold getWorkspaceSize, SizeT.add, SizeT.mul, Int.mul.
  apply wrap_congr.
  rewrite size_t_mod_int, Z.add_mod, !size_t_mod_int by (unfold Int.modulus; lia).
  rewrite wrap_mod, (Z.mul_mod 13), wrap_mod by (unfold Int.modulus; lia).
  rewrite <- Z.mul_mod, <- Z.add_mod by (unfold Int.modulus; lia).
  f_equal; lia.
Qed.

(** C1, as stated, fails: for batch size 1 and hidden width 1 in full
    precision the query returns [13 + 72 = 85], not
    [13 * 4 + 72 = 124]; the element size is no factor of the result. *)
Lemma getWorkspaceSize_not_in_bytes :
  let d := example_decoder FP32 1 1 1 in
  batch_size_ d = 1 /\ hidden_units_ d = 1 /\
  getWorkspaceSize d = 85 /\
  getWorkspaceSize d
  <> 13 * batch_size_ d * hidden_units_ d * sizeof_DataType (OpType_ d) + 9 * sizeof_ptr.
Proof. vm_compute. repeat split; congruence. Qed.

(** C1, amended: for every batch size [b] and hidden width [h] whose
    [13 * b * h + 9 * pointerSize] is an [int], the workspace sizing query
    returns exactly [13 * b * h + 9 * pointerSize]: a count of elements
    plus the bytes of nine pointers, the same for either precision. *)
Theorem getWorkspaceSize_formula (d : OpenDecoder) :
  Int.in_range (13 * batch_size_ d * hidden_units_ d + 9 * sizeof_ptr) ->
  getWorkspaceSize d = 13 * batch_size_ d * hidden_units_ d + 9 * sizeof_ptr.
Proof.
  intros H. rewrite getWorkspaceSize_wrap.
  replace (13 * (batch_size_ d * hidden_units_ d))
    with (13 * batch_size_ d * hidden_units_ d) by lia.
  apply wrap_in_range, H.
Qed.

Lemma getWorkspaceSize_formula_witness :
  let d := example_decoder FP16 8 16 64 in
  getWorkspaceSize d = 13 * 8 * 1024 + 9 * 8.
Proof.
  intros d.
  apply (getWorkspaceSize_formula d).
  vm_compute. split; congruence.
Defined.

(** ** The layout of the workspace *)

Section Layout.

Variable esz : Z.
Hypothesis esz_nonneg : 0 <= esz.

(** Every region of a gapless chain lies between its two ends. *)
Lemma contiguous_bounds (rs : list (ptr * Z)) : forall (from to : ptr),
  contiguous esz from rs to -> Forall (fun r => 0 <= r.2) rs ->
  from <= to /\
  forall (k : nat) r, rs !! k = Some r -> from <= r.1 /\ r.1 + r.2 * esz <= to.
Proof.
  induction rs as [|[p n] rs IH]; intros from to Hc Hn.
  - simpl in Hc. subst. split; [lia|]. intros k r Hk. destruct k; discriminate.
  - destruct Hc as [-> Hc]. inversion Hn as [|? ? Hn0 Hn']; subst. simpl in Hn0.
    destruct (IH _ _ Hc Hn') as [Hle Hin].
    assert (0 <= n * esz) by lia.
    split; [lia|]. intros [|k] r Hk.
    + injection Hk as <-. simpl. lia.
    + destruct (Hin k r Hk). lia.
Qed.

(** In a gapless chain an earlier region ends before a later one starts. *)
Lemma contiguous_ordered (rs : list (ptr * Z)) : forall (from to : ptr),
  contiguous esz from rs to -> Forall (fun r => 0 <= r.2) rs ->
  forall (i j : nat) r1 r2, (i < j)%nat ->
    rs !! i = Some r1 -> rs !! j = Some r2 -> r1.1 + r1.2 * esz <= r2.1.
Proof.
  induction rs as [|[p n] rs IH]; intros from to Hc Hn i j r1 r2 Hij Hi Hj.
  - destruct i; discriminate.
  - destruct Hc as [-> Hc]. inversion Hn as [|? ? Hn0 Hn']; subst.
    destruct j as [|j]; [lia|]. destruct i as [|i].
    + injection Hi as <-. simpl.
      destruct (contiguous_bounds _ _ _ Hc Hn') as [_ Hin].
      destruct (Hin j r2 Hj). lia.
    + apply (IH _ _ Hc Hn' i j); [lia|assumption..].
Qed.

End Layout.

(** C3, as stated, miscounts: the binding yields ten tensor regions, not
    nine.  For batch size 1 and hidden width 1 in full precision there are
    ten regions before the pointer arrays, which start 13 elements after
    the buffer's start; nine regions of the stated sizes (eight of [b * h]
    elements and one of [4 * b * h]) would end after 12. *)
Lemma workspace_regions_are_ten :
  let d := bound_decoder FP32 1 1 1 in
  let esz := sizeof_DataType FP32 in
  batch_size_ d * hidden_units_ d = 1 /\
  length (workspace_regions d) = 10%nat /\
  length (workspace_regions d) <> 9%nat /\
  contiguous esz (norm_from_tensor_buf_ d) (workspace_regions d) (qkv_kernel_ d) /\
  qkv_kernel_ d = norm_from_tensor_buf_ d + 13 * esz /\
  qkv_kernel_ d <> norm_from_tensor_buf_ d + (8 + 4) * esz.
Proof. vm_compute. repeat split; congruence. Qed.

(** C3, amended: for every batch size [b] and hidden width [h] with
    [b * h >= 0] and [9 * b * h] an [int] (the largest product that
    [initialize] forms; beyond it the [int] arithmetic of the code
    overflows, which C++ leaves undefined), binding a workspace buffer
    yields ten regions occupying disjoint, contiguous sub-ranges of the
    buffer in the fixed order normalized-input, query, key, value, context,
    masked-attention-output, normalized-masked-output,
    cross-attention-output, normalized-cross-output, feed-forward-inner,
    each of exactly [b * h] elements except feed-forward-inner, which has
    [4 * b * h]; the three pointer arrays of three slots each (kernel,
    input, output) follow immediately, in that order. *)
Theorem initialize_region_layout (d : OpenDecoder) (param : DecoderInitParam)
    (buf : ptr) :
  0 <= batch_size_ d * hidden_units_ d ->
  9 * (batch_size_ d * hidden_units_ d) <= Int.max_signed ->
  let d' := (initialize d param buf).1 in
  let esz := sizeof_DataType (OpType_ d) in
  let bh := batch_size_ d * hidden_units_ d in
  [norm_from_tensor_buf_ d'; query_buf_ d'; key_buf_ d'; value_buf_ d';
   context_buf_ d'; masked_output_buf_ d'; norm_masked_output_buf_ d';
   cross_output_buf_ d'; norm_cross_output_buf_ d'; ffn_inner_buf_ d']
  = map (fun k => buf + k * bh * esz) [0; 1; 2; 3; 4; 5; 6; 7; 8; 9] /\
  workspace_regions d'
  = map (fun k => (buf + k * bh * esz, bh)) [0; 1; 2; 3; 4; 5; 6; 7; 8]
    ++ [(buf + 9 * bh * esz, 4 * bh)] /\
  contiguous esz buf (workspace_regions d') (qkv_kernel_ d') /\
  (forall (i j : nat) r1 r2, (i < j)%nat ->
     workspace_regions d' !! i = Some r1 -> workspace_regions d' !! j = Some r2 ->
     disjoint esz r1 r2) /\
  qkv_kernel_ d' = buf + 13 * bh * esz /\
  qkv_input_ d' = qkv_kernel_ d' + 3 * sizeof_ptr /\
  qkv_buf_ d' = qkv_input_ d' + 3 * sizeof_ptr.
Proof.
  intros Hbh Hmax d' esz bh. fold bh in Hbh, Hmax.
  assert (Hesz : 0 <= esz) by (subst esz; destruct (OpType_ d); simpl; lia).
  assert (Hk : forall k, 0 <= k <= 9 -> Int.in_range (k * bh)).
  { intros k Hk. unfold Int.in_range, Int.min_signed, Int.max_signed in *. nia. }
  assert (Hbs : Int.mul (batch_size_ d) (hidden_units_ d) = bh).
  { apply mul_in_range. fold bh. replace bh with (1 * bh) by lia. apply Hk. lia. }
  assert (Hm : forall k, 0 <= k <= 9 -> Int.mul k bh = k * bh).
  { intros k Hk'. apply mul_in_range, Hk, Hk'. }
  assert (Hptrs :
    [norm_from_tensor_buf_ d'; query_buf_ d'; key_buf_ d'; value_buf_ d';
     context_buf_ d'; masked_output_buf_ d'; norm_masked_output_buf_ d';
     cross_output_buf_ d'; norm_cross_output_buf_ d'; ffn_inner_buf_ d']
    = map (fun k => buf + k * bh * esz) [0; 1; 2; 3; 4; 5; 6; 7; 8; 9]).
  { subst d'. unfold initialize. cbn [fst norm_from_tensor_buf_ query_buf_ key_buf_
      value_buf_ context_buf_ masked_output_buf_ norm_masked_output_buf_
      cross_output_buf_ norm_cross_output_buf_ ffn_inner_buf_ map].
    rewrite Hbs, !Hm by lia. unfold ptr_add. fold esz.
    repeat (apply (f_equal2 cons); [ring|]). reflexivity. }
  assert (Hq : qkv_kernel_ d' = buf + 13 * bh * esz).
  { subst d'. unfold initialize. cbn [fst qkv_kernel_].
    rewrite Hbs, !Hm by lia. unfold ptr_add. fold esz. lia. }
  assert (Hregions : workspace_regions d'
    = map (fun k => (buf + k * bh * esz, bh)) [0; 1; 2; 3; 4; 5; 6; 7; 8]
      ++ [(buf + 9 * bh * esz, 4 * bh)]).
  { subst d'. unfold workspace_regions, initialize.
    cbn [fst norm_from_tensor_buf_ query_buf_ key_buf_
      value_buf_ context_buf_ masked_output_buf_ norm_masked_output_buf_
      cross_output_buf_ norm_cross_output_buf_ ffn_inner_buf_ batch_size_
      hidden_units_ map app].
    rewrite Hbs, !Hm by lia. unfold ptr_add. fold esz. fold bh.
    repeat (apply (f_equal2 cons); [apply (f_equal2 pair); [ring|reflexivity]|]).
    reflexivity. }
  assert (Hc : contiguous esz buf (workspace_regions d') (qkv_kernel_ d')).
  { rewrite Hregions, Hq. cbn [map app contiguous]. repeat split; lia. }
  assert (Hn : Forall (fun r : ptr * Z => 0 <= r.2) (workspace_regions d')).
  { rewrite Hregions. cbn [map app]. repeat constructor; simpl; lia. }
  refine (conj Hptrs (conj Hregions (conj Hc (conj _ (conj Hq (conj _ _)))))).
  - intros i j r1 r2 Hij Hi Hj. left.
    apply (contiguous_ordered esz Hesz _ _ _ Hc Hn i j r1 r2 Hij Hi Hj).
  - subst d'. reflexivity.
  - subst d'. reflexivity.
Qed.

Lemma initialize_region_layout_witness :
  let d' := bound_decoder FP16 20000 100 100 in
  qkv_kernel_ d' = 4096 + 13 * (20000 * 10000) * 2 /\
  contiguous 2 4096 (workspace_regions d') (qkv_kernel_ d').
Proof.
  intros d'.
  pose proof (initialize_region_layout (example_decoder FP16 20000 100 100)
                example_param 4096) as H.
  destruct H as (_ & _ & Hc & _ & Hq & _); [vm_compute; congruence..|].
  split; [exact Hq | exact Hc].
Defined.

(** ** The pointer arrays of the fused projection *)

Lemma copy_size : SizeT.mul sizeof_ptr 9 = 9 * sizeof_ptr.
Proof. reflexivity. Qed.

(** Reading slot [i] of an array of pointers that was written from [src]. *)
Lemma write_ptrs_lookup (src : list ptr) : forall (dst : ptr) (n : nat)
    (mem : gmap Z ptr) (i : nat),
  (i < n)%nat -> (i < length src)%nat ->
  pptr_index (write_ptrs dst src n mem) dst (Z.of_nat i) = src !! i.
Proof.
  assert (Hkeep : forall (src : list ptr) (dst : ptr) (n : nat) (mem : gmap Z ptr) a,
             a < dst -> write_ptrs dst src n mem !! a = mem !! a).
  { clear. induction src as [|p src IH]; intros dst n mem a Ha.
    - destruct n; reflexivity.
    - destruct n as [|n]; [reflexivity|]. simpl.
      rewrite IH by (unfold pptr_add, sizeof_ptr; lia).
      apply lookup_insert_ne. lia. }
  induction src as [|p src IH]; intros dst n mem i Hn Hs; [simpl in Hs; lia|].
  destruct n as [|n]; [lia|]. unfold pptr_index in *. simpl.
  destruct i as [|i].
  - replace (pptr_add dst (Z.of_nat 0)) with dst by (unfold pptr_add; simpl; lia).
    rewrite Hkeep by (unfold pptr_add, sizeof_ptr; lia).
    apply lookup_insert_eq.
  - simpl in Hs. change ((p :: src) !! S i) with (src !! i).
    rewrite <- (IH (pptr_add dst 1) n (<[dst := p]> mem) i) by lia.
    f_equal. unfold pptr_add, sizeof_ptr. lia.
Qed.

(** C8: when the fusion flag is enabled, binding issues exactly one call,
    an asynchronous host-to-device copy of nine pointers to the
    kernel-pointer array on the stream of the bound parameters; once it
    has run, the kernel-pointer array holds the query, key and value
    projection matrices of self-attention, the input-pointer array holds
    the normalized-input region three times, and the output-pointer array
    holds the query, key and value regions.  When the flag is disabled no
    call is issued and device memory is as before.  Neither way does
    binding allocate, and it leaves the flag as it was. *)
Theorem initialize_pointer_arrays (d : OpenDecoder) (param : DecoderInitParam)
    (buf : ptr) (mem : gmap Z ptr) :
  let d' := (initialize d param buf).1 in
  let calls := (initialize d param buf).2 in
  let mem' := foldl (fun m c => run_runtime_call c m) mem calls in
  Forall (fun c => allocates c = false) calls /\
  is_fuse_QKV d' = is_fuse_QKV d /\
  if is_fuse_QKV d then
    calls = [cudaMemcpyAsync (qkv_kernel_ d')
               [kernel (query_weight (self_attention param));
                kernel (key_weight (self_attention param));
                kernel (value_weight (self_attention param));
                norm_from_tensor_buf_ d'; norm_from_tensor_buf_ d';
                norm_from_tensor_buf_ d';
                query_buf_ d'; key_buf_ d'; value_buf_ d']
               (9 * sizeof_ptr) cudaMemcpyHostToDevice (stream param)] /\
    map (pptr_index mem' (qkv_kernel_ d')) [0; 1; 2]
    = map Some [kernel (query_weight (self_attention param));
                kernel (key_weight (self_attention param));
                kernel (value_weight (self_attention param))] /\
    map (pptr_index mem' (qkv_input_ d')) [0; 1; 2]
    = map Some [norm_from_tensor_buf_ d'; norm_from_tensor_buf_ d';
                norm_from_tensor_buf_ d'] /\
    map (pptr_index mem' (qkv_buf_ d')) [0; 1; 2]
    = map Some [query_buf_ d'; key_buf_ d'; value_buf_ d']
  else
    calls = [] /\ mem' = mem.
Proof.
  intros d' calls mem'. subst d' calls mem'. unfold initialize.
  cbn [fst snd is_fuse_QKV qkv_kernel_ qkv_input_ qkv_buf_ norm_from_tensor_buf_
       query_buf_ key_buf_ value_buf_].
  destruct (is_fuse_QKV d).
  - split; [repeat constructor|]. split; [reflexivity|].
    rewrite copy_size. split; [reflexivity|].
    cbn [foldl run_runtime_call].
    replace (Z.to_nat (9 * sizeof_ptr / sizeof_ptr)) with 9%nat by reflexivity.
    set (dst := ptr_add (OpType_ d) _ _).
    set (hA := [_; _; _; _; _; _; _; _; _]).
    assert (Hslot : forall i : Z, 0 <= i < 9 ->
              pptr_index (write_ptrs dst hA 9 mem) dst i = hA !! Z.to_nat i).
    { intros i Hi. rewrite <- (Z2Nat.id i) at 1 by lia.
      apply write_ptrs_lookup; simpl; lia. }
    assert (Hin : forall i, pptr_index (write_ptrs dst hA 9 mem) (pptr_add dst 3) i
                            = pptr_index (write_ptrs dst hA 9 mem) dst (3 + i)).
    { intros i. unfold pptr_index, pptr_add. f_equal. lia. }
    assert (Hout : forall i,
              pptr_index (write_ptrs dst hA 9 mem) (pptr_add (pptr_add dst 3) 3) i
              = pptr_index (write_ptrs dst hA 9 mem) dst (6 + i)).
    { intros i. unfold pptr_index, pptr_add. f_equal. lia. }
    cbn [map]. rewrite !Hin, !Hout.
    rewrite !Hslot by lia.
    repeat split; reflexivity.
  - split; [constructor|]. repeat split; reflexivity.
Qed.

(** ** The tuning file *)

Lemma parse_gemm_config_format :
  parse_format gemm_config_format
  = [ {| suppressed := true; conv := conv_d |}; {| suppressed := true; conv := conv_f |};
      {| suppressed := false; conv := conv_d |}; {| suppressed := false; conv := conv_f |};
      {| suppressed := false; conv := conv_d |}; {| suppressed := true; conv := conv_f |};
      {| suppressed := false; conv := conv_d |}; {| suppressed := true; conv := conv_f |};
      {| suppressed := false; conv := conv_d |}; {| suppressed := true; conv := conv_f |};
      {| suppressed := false; conv := conv_d |}; {| suppressed := false; conv := conv_f |} ].
Proof. reflexivity. Qed.

Lemma convert_f (f : field) : convert conv_f f = Some (scanned_float (field_float f)).
Proof. destruct f; reflexivity. Qed.

Lemma convert_d (z : Z) : convert conv_d (int_literal z) = Some (scanned_int (Int.wrap z)).
Proof. reflexivity. Qed.

(** A stream that starts with the twelve fields of the format assigns all
    seven values. *)
Lemma fscanf_twelve_fields (i0 x0 x1 x2 x3 x4 : Z) (f0 f1 f2 f3 f4 f5 : field)
    (rest : list field) :
  fscanf gemm_config_format
    (int_literal i0 :: f0 :: int_literal x0 :: f1 :: int_literal x1 :: f2 ::
     int_literal x2 :: f3 :: int_literal x3 :: f4 :: int_literal x4 :: f5 :: rest)
  = (7, [scanned_int (Int.wrap x0); scanned_float (field_float f1);
         scanned_int (Int.wrap x1); scanned_int (Int.wrap x2);
         scanned_int (Int.wrap x3); scanned_int (Int.wrap x4);
         scanned_float (field_float f5)]).
Proof.
  unfold fscanf. rewrite parse_gemm_config_format.
  repeat (cbn [scan conv suppressed]; rewrite ?convert_f, ?convert_d).
  reflexivity.
Qed.

Lemma scan_cons (d : directive) (fmt : list directive) (f : field) (input : list field) :
  scan (d :: fmt) (f :: input)
  = match convert (conv d) f with
    | Some v => if suppressed d then scan fmt input else v :: scan fmt input
    | None => []
    end.
Proof. reflexivity. Qed.

Lemma scan_end (fmt : list directive) : scan fmt [] = [].
Proof. destruct fmt; reflexivity. Qed.

(** One conversion of the scan in hypothesis [H]: the stream has a next
    field, and the conversion matches it. *)
Ltac scan_d input H :=
  let f := fresh "f" in
  destruct input as [|f input];
  [rewrite scan_end in H; cbn [length] in H; discriminate H|];
  rewrite scan_cons in H; cbn [conv suppressed] in H;
  destruct f as [?|?];
  [rewrite convert_d in H | cbn [convert length] in H; discriminate H].

Ltac scan_f input H :=
  destruct input as [|? input];
  [rewrite scan_end in H; cbn [length] in H; discriminate H|];
  rewrite scan_cons in H; cbn [conv suppressed] in H; rewrite convert_f in H.

(** Conversely, [fscanf] assigns seven values only on such a stream. *)
Lemma fscanf_full_parse (input : list field) :
  (fscanf gemm_config_format input).1 = 7 ->
  exists i0 f0 x0 f1 x1 f2 x2 f3 x3 f4 x4 f5 rest,
    input = int_literal i0 :: f0 :: int_literal x0 :: f1 :: int_literal x1 :: f2 ::
            int_literal x2 :: f3 :: int_literal x3 :: f4 :: int_literal x4 :: f5 :: rest.
Proof.
  unfold fscanf. rewrite parse_gemm_config_format.
  destruct input as [|a0 input0] eqn:E; [discriminate|]. rewrite <- E. clear E.
  cbn [fst]. intros H. apply (Nat2Z.inj _ 7%nat) in H.
  do 5 (scan_d input H; scan_f input H).
  scan_d input H. scan_f input H.
  repeat eexists.
Qed.

Lemma first_invalid_find (hi lo : Z) (a : list Z) : forall pre : list Z,
  first_invalid hi lo (pre ++ a) (seq (length pre) (length a))
  = find (out_of_range hi lo) a.
Proof.
  induction a as [|x a IH]; intros pre; [reflexivity|].
  cbn [length seq first_invalid find]. rewrite nth_middle.
  destruct (out_of_range hi lo x); [reflexivity|].
  specialize (IH (pre ++ [x])).
  rewrite <- app_assoc, length_app in IH. cbn [app length] in IH.
  rewrite Nat.add_1_r in IH. exact IH.
Qed.

Lemma first_invalid_five (hi lo a0 a1 a2 a3 a4 : Z) :
  first_invalid hi lo [a0; a1; a2; a3; a4] [0%nat; 1%nat; 2%nat; 3%nat; 4%nat]
  = find (out_of_range hi lo) [a0; a1; a2; a3; a4].
Proof. apply (first_invalid_find hi lo [a0; a1; a2; a3; a4] []). Qed.

Lemma valid_algo_FP32 (x : Z) :
  valid_algo FP32 x = negb (out_of_range CUBLAS_GEMM_ALGO23 CUBLAS_GEMM_DEFAULT x).
Proof.
  unfold valid_algo, out_of_range. rewrite Z.gtb_ltb.
  destruct (Z.leb_spec CUBLAS_GEMM_DEFAULT x), (Z.leb_spec x CUBLAS_GEMM_ALGO23),
    (Z.ltb_spec CUBLAS_GEMM_ALGO23 x), (Z.ltb_spec x CUBLAS_GEMM_DEFAULT);
    simpl; try reflexivity; lia.
Qed.

Lemma valid_algo_FP16 (x : Z) :
  valid_algo FP16 x
  = negb (out_of_range CUBLAS_GEMM_ALGO15_TENSOR_OP CUBLAS_GEMM_DEFAULT_TENSOR_OP x).
Proof.
  unfold valid_algo, out_of_range. rewrite Z.gtb_ltb.
  destruct (Z.leb_spec CUBLAS_GEMM_DEFAULT_TENSOR_OP x),
    (Z.leb_spec x CUBLAS_GEMM_ALGO15_TENSOR_OP),
    (Z.ltb_spec CUBLAS_GEMM_ALGO15_TENSOR_OP x),
    (Z.ltb_spec x CUBLAS_GEMM_DEFAULT_TENSOR_OP);
    simpl; try reflexivity; lia.
Qed.

(** What the search of a range-checking loop says about the ids. *)
Lemma find_out_of_range (valid : Z -> bool) (hi lo : Z) (ids : list Z) :
  (forall x, valid x = negb (out_of_range hi lo x)) ->
  match find (out_of_range hi lo) ids with
  | Some x => In x ids /\ valid x = false /\ forallb valid ids = false
  | None => forallb valid ids = true
  end.
Proof.
  intros Hv. destruct (find (out_of_range hi lo) ids) as [x|] eqn:Hf.
  - apply find_some in Hf as [Hin Hx].
    assert (Hvx : valid x = false) by (rewrite Hv, Hx; reflexivity).
    repeat split; try assumption.
    destruct (forallb valid ids) eqn:Hall; [|reflexivity].
    rewrite forallb_forall in Hall. rewrite (Hall x Hin) in Hvx. discriminate.
  - apply forallb_forall. intros x Hin.
    rewrite Hv, (find_none _ _ Hf x Hin). reflexivity.
Qed.

(** The constructor on a stream that starts with the twelve fields. *)
Lemma ctor_on_twelve_fields (op : OperationType) (u : indeterminate)
    (i0 x0 x1 x2 x3 x4 : Z) (f0 f1 f2 f3 f4 f5 : field) (rest : list field)
    (batch_size seq_len head_num size_per_head memory_hidden_units : Z) :
  let ids := [Int.wrap x0; Int.wrap x1; Int.wrap x2; Int.wrap x3; Int.wrap x4] in
  let fuse := float_lt (field_float f5) (float_mul (field_float f1) (float_of_int 3)) in
  let d := construct op u ids fuse
             batch_size seq_len head_num size_per_head memory_hidden_units in
  OpenDecoder_ctor op u
    (Some (int_literal i0 :: f0 :: int_literal x0 :: f1 :: int_literal x1 :: f2 ::
           int_literal x2 :: f3 :: int_literal x3 :: f4 :: int_literal x4 :: f5 :: rest))
    batch_size seq_len head_num size_per_head memory_hidden_units
  = match op with
    | FP32 =>
        match find (out_of_range CUBLAS_GEMM_ALGO23 CUBLAS_GEMM_DEFAULT) ids with
        | Some x =>
            ([printf "[ERROR] cuBLAS Algorithm %d is not used in FP32. \n" [x]],
             exits (-1))
        | None => ([], returns d)
        end
    | FP16 =>
        match find (out_of_range CUBLAS_GEMM_ALGO15_TENSOR_OP
                      CUBLAS_GEMM_DEFAULT_TENSOR_OP) ids with
        | Some x =>
            ([printf "[ERROR] cuBLAS Algorithm %d is not used in FP16. \n" [x]],
             exits (-1))
        | None => ([], returns d)
        end
    end.
Proof.
  unfold OpenDecoder_ctor. rewrite fscanf_twelve_fields.
  generalize (Int.wrap x0) (Int.wrap x1) (Int.wrap x2) (Int.wrap x3) (Int.wrap x4).
  intros a0 a1 a2 a3 a4.
  cbn [snd map seq assign_all gemm_config_args assign algo
       split_time fused_time Z.eqb Pos.eqb negb].
  change (<[4%nat:=a4]> (<[3%nat:=a3]> (<[2%nat:=a2]> (<[1%nat:=a1]> (<[0%nat:=a0]>
            [junk_int u 0%nat; junk_int u 1%nat; junk_int u 2%nat;
             junk_int u 3%nat; junk_int u 4%nat])))))
    with [a0; a1; a2; a3; a4].
  rewrite !first_invalid_five.
  destruct op; destruct (find _ _); reflexivity.
Qed.

(** C4: when the tuning file fully parses, the five ids are checked
    against the range of the active precision,
    [CUBLAS_GEMM_DEFAULT .. CUBLAS_GEMM_ALGO23] for full precision and
    [CUBLAS_GEMM_DEFAULT_TENSOR_OP .. CUBLAS_GEMM_ALGO15_TENSOR_OP] for
    reduced precision.  If all five are inside it, construction returns
    and the object holds them verbatim; if one is outside, the process
    exits with status [-1] after a diagnostic that names such an id. *)
Theorem ctor_checks_algorithm_ids (op : OperationType) (u : indeterminate)
    (input : list field)
    (batch_size seq_len head_num size_per_head memory_hidden_units : Z) :
  (fscanf gemm_config_format input).1 = 7 ->
  let ids := scanned_ints (fscanf gemm_config_format input).2 in
  let r := OpenDecoder_ctor op u (Some input)
             batch_size seq_len head_num size_per_head memory_hidden_units in
  length ids = 5%nat /\
  (forallb (valid_algo op) ids = true ->
   exists d, r.2 = returns d /\ cublasAlgo_ d = ids) /\
  (forallb (valid_algo op) ids = false ->
   r.2 = exits (-1) /\
   exists x fmt, In x ids /\ valid_algo op x = false /\ r.1 = [printf fmt [x]]).
Proof.
  intros H.
  destruct (fscanf_full_parse _ H)
    as (i0 & f0 & x0 & f1 & x1 & f2 & x2 & f3 & x3 & f4 & x4 & f5 & rest & ->).
  rewrite ctor_on_twelve_fields, fscanf_twelve_fields.
  cbn [snd scanned_ints omap list_omap].
  set (ids := [Int.wrap x0; Int.wrap x1; Int.wrap x2; Int.wrap x3; Int.wrap x4]).
  split; [reflexivity|].
  destruct op.
  - pose proof (find_out_of_range _ _ _ ids valid_algo_FP32) as Hf.
    destruct (find _ ids) as [x|]; cbn [fst snd].
    + destruct Hf as (Hin & Hx & Hall). split; [congruence|].
      intros _. split; [reflexivity|]. eauto 6.
    + split; [|congruence]. intros _. eexists. split; reflexivity.
  - pose proof (find_out_of_range _ _ _ ids valid_algo_FP16) as Hf.
    destruct (find _ ids) as [x|]; cbn [fst snd].
    + destruct Hf as (Hin & Hx & Hall). split; [congruence|].
      intros _. split; [reflexivity|]. eauto 6.
    + split; [|congruence]. intros _. eexists. split; reflexivity.
Qed.

Lemma ctor_checks_algorithm_ids_witness :
  exists d,
    (OpenDecoder_ctor FP32 example_junk (Some (example_config 1 5)) 1 8 1 1 16).2
    = returns d /\
    cublasAlgo_ d = [4; 5; 6; 7; 8].
Proof.
  destruct (ctor_checks_algorithm_ids FP32 example_junk (example_config 1 5) 1 8 1 1 16)
    as (_ & Hvalid & _); [vm_compute; reflexivity|].
  apply Hvalid. vm_compute. reflexivity.
Defined.

(** The same file under reduced precision: id 4 is below
    [CUBLAS_GEMM_DEFAULT_TENSOR_OP], and the process exits. *)
Example ctor_rejects_full_precision_ids_for_FP16 :
  OpenDecoder_ctor FP16 example_junk (Some (example_config 1 5)) 1 8 1 1 16
  = ([printf "[ERROR] cuBLAS Algorithm %d is not used in FP16. \n" [4]], exits (-1)).
Proof. vm_compute. reflexivity. Qed.

Lemma assign_length (l : lvalue) (v : scanned) (st : ctor_locals) :
  length (algo (assign l v st)) = length (algo st).
Proof.
  destruct l, v; cbn [assign algo]; try reflexivity. apply length_insert.
Qed.

Lemma assign_all_length (ls : list lvalue) : forall (vs : list scanned) (st : ctor_locals),
  length (algo (assign_all ls vs st)) = length (algo st).
Proof.
  induction ls as [|l ls IH]; intros vs st; [reflexivity|].
  destruct vs as [|v vs]; [reflexivity|].
  cbn [assign_all]. rewrite IH. apply assign_length.
Qed.

Lemma fill_default_five (x : Z) (a : list Z) :
  length a = 5%nat -> fill_default x a = replicate 5 x.
Proof.
  intros H.
  destruct a as [|a0 [|a1 [|a2 [|a3 [|a4 [|a5 a]]]]]]; try discriminate H.
  reflexivity.
Qed.



(** A missing file, in full precision. *)
Example ctor_without_tuning_file :
  exists d,
    OpenDecoder_ctor FP32 example_junk None 1 8 1 1 16
    = ([printf "[WARNING] decoding_gemm_config.in is not found\n" []], returns d) /\
    cublasAlgo_ d = [-1; -1; -1; -1; -1] /\ is_fuse_QKV d = false.
Proof. eexists. vm_compute. repeat split; reflexivity. Qed.

(** C2, as stated, fails: in this file the float after the first id is 1
    and the last float is 5, so that the first is below three times the
    last; yet the constructor leaves fusion disabled, because it compares
    the other way round. *)
Lemma fusion_flag_not_first_below_triple_last :
  let input := example_config 1 5 in
  (fscanf gemm_config_format input).1 = 7 /\
  input !! 3%nat = Some (real_literal (float_of_int 1)) /\
  input !! 11%nat = Some (real_literal (float_of_int 5)) /\
  exists d,
    (OpenDecoder_ctor FP32 example_junk (Some input) 1 8 1 1 16).2 = returns d /\
    is_fuse_QKV d = false /\
    float_lt (float_of_int 1) (float_mul (float_of_int 3) (float_of_int 5)) = true /\
    is_fuse_QKV d
    <> float_lt (float_of_int 1) (float_mul (float_of_int 3) (float_of_int 5)).
Proof.
  vm_compute. repeat split. eexists. repeat split; congruence.
Qed.

(** C2, amended: when the tuning file parses in the fixed token order and
    its ids are valid, the fusion flag is enabled iff the final float of
    the file (the constructor's [fused_time]) is strictly less than the
    float that follows the first id (its [split_time]) times three, in
    binary32; when it is not less, equality included, fusion is disabled. *)
Theorem fusion_decision (op : OperationType) (u : indeterminate)
    (input : list field) (first last : field)
    (batch_size seq_len head_num size_per_head memory_hidden_units : Z) :
  (fscanf gemm_config_format input).1 = 7 ->
  forallb (valid_algo op) (scanned_ints (fscanf gemm_config_format input).2) = true ->
  input !! 3%nat = Some first ->
  input !! 11%nat = Some last ->
  exists d,
    (OpenDecoder_ctor op u (Some input)
       batch_size seq_len head_num size_per_head memory_hidden_units).2 = returns d /\
    is_fuse_QKV d
    = float_lt (field_float last) (float_mul (field_float first) (float_of_int 3)).
Proof.
  intros H Hvalid Hfirst Hlast.
  destruct (fscanf_full_parse _ H)
    as (i0 & f0 & x0 & f1 & x1 & f2 & x2 & f3 & x3 & f4 & x4 & f5 & rest & ->).
  cbn in Hfirst, Hlast. injection Hfirst as <-. injection Hlast as <-.
  rewrite fscanf_twelve_fields in Hvalid. cbn [snd scanned_ints omap list_omap] in Hvalid.
  rewrite ctor_on_twelve_fields.
  set (ids := [Int.wrap x0; Int.wrap x1; Int.wrap x2; Int.wrap x3; Int.wrap x4]) in *.
  destruct op.
  - pose proof (find_out_of_range _ _ _ ids valid_algo_FP32) as Hf.
    destruct (find _ ids) as [x|].
    + destruct Hf as (_ & _ & Hall). rewrite Hall in Hvalid. discriminate.
    + eexists. split; reflexivity.
  - pose proof (find_out_of_range _ _ _ ids valid_algo_FP16) as Hf.
    destruct (find _ ids) as [x|].
    + destruct Hf as (_ & _ & Hall). rewrite Hall in Hvalid. discriminate.
    + eexists. split; reflexivity.
Qed.

Lemma fusion_decision_witness :
  exists d,
    (OpenDecoder_ctor FP32 example_junk (Some (example_config 5 1)) 1 8 1 1 16).2
    = returns d /\
    is_fuse_QKV d
    = float_lt (float_of_int 1) (float_mul (float_of_int 5) (float_of_int 3)).
Proof.
  apply (fusion_decision FP32 example_junk (example_config 5 1)
           (real_literal (float_of_int 5)) (real_literal (float_of_int 1)) 1 8 1 1 16);
    vm_compute; reflexivity.
Defined.

(** The boundary: a last float equal to three times the float after the
    first id leaves fusion disabled; just one below enables it. *)
Example fusion_boundary :
  (exists d,
     (OpenDecoder_ctor FP32 example_junk (Some (example_config 5 15)) 1 8 1 1 16).2
     = returns d /\ is_fuse_QKV d = false) /\
  (exists d,
     (OpenDecoder_ctor FP32 example_junk (Some (example_config 5 14)) 1 8 1 1 16).2
     = returns d /\ is_fuse_QKV d = true).
Proof. split; eexists; vm_compute; split; reflexivity. Qed.

(** ** The control flow of [forward] *)

Section ForwardFlow.

Context {W : Type}.
Variable exec : call -> W -> outcome W.

Lemma run_calls_app (cs1 cs2 : list call) (s : machine W) :
  run_calls exec (cs1 ++ cs2) s
  = match run_calls exec cs1 s with
    | (normal _, s1) => run_calls exec cs2 s1
    | (abrupt e, s1) => (abrupt e, s1)
    end.
Proof.
  revert s. induction cs1 as [|c cs1 IH]; intros s; [reflexivity|].
  cbn [app run_calls]. destruct (invoke exec c s) as [[[]|e] s1]; [apply IH|reflexivity].
Qed.

(** Calls that all return are all issued, in order. *)
Lemma run_calls_complete (cs : list call) :
  (forall c w, exists w', exec c w = completes w') ->
  forall s, exists s',
    run_calls exec cs s = (normal tt, s') /\ issued s' = issued s ++ cs.
Proof.
  intros Hexec. induction cs as [|c cs IH]; intros s.
  - exists s. split; [reflexivity|]. rewrite app_nil_r. reflexivity.
  - cbn [run_calls]. unfold invoke.
    destruct (Hexec c (world s)) as [w' ->].
    destruct (IH {| world := w'; issued := issued s ++ [c] |}) as (s' & Hrun & Hiss).
    exists s'. split; [exact Hrun|].
    rewrite Hiss. cbn [issued]. rewrite <- app_assoc. reflexivity.
Qed.

(** [forward] issues the calls of [forward_calls] in order, up to the
    first that throws, and hands an exception to its caller as its catch
    clause rethrows it. *)
Lemma forward_run (NDEBUG : bool) (d : OpenDecoder)
    (from_tensor memory_tensor key_cache_ value_cache_ key_mem_cache_
       value_mem_cache_ memory_sequence_length decoder_output : ptr)
    (step : Z) (is_cross_attention : bool) (s : machine W) :
  forward exec NDEBUG d from_tensor memory_tensor key_cache_ value_cache_
    key_mem_cache_ value_mem_cache_ memory_sequence_length decoder_output
    step is_cross_attention s
  = match run_calls exec
            (forward_calls NDEBUG d from_tensor memory_tensor key_cache_ value_cache_
               key_mem_cache_ value_mem_cache_ memory_sequence_length decoder_output
               step is_cross_attention) s with
    | (normal a, s') => (normal a, s')
    | (abrupt e, s') => (abrupt (rethrown e), s')
    end.
Proof.
  unfold forward, forward_calls, try_catch_runtime_error, throw_copy, throw, rethrown,
    debug_check, print_tensor, print_tensor_int, self_only_kernels, cross_kernels,
    with_debug_checks, debug_calls.
  unfold mbind, M_bind, mret, M_ret.
  destruct NDEBUG, is_cross_attention;
    cbn [flat_map app run_calls]; cbv beta iota;
    repeat match goal with
      | |- context [invoke exec ?c ?s0] =>
          destruct (invoke exec c s0) as [[[]|?] ?];
          cbv beta iota;
          [|match goal with
            | |- context [is_runtime_error ?e] => destruct (is_runtime_error e)
            end; reflexivity]
      end;
    reflexivity.
Qed.

End ForwardFlow.

Section ForwardProperties.

Context {W : Type}.
Variable exec : call -> W -> outcome W.

Lemma run_calls_normal_issued (cs : list call) : forall (s s1 : machine W) (a : unit),
  run_calls exec cs s = (normal a, s1) -> issued s1 = issued s ++ cs.
Proof.
  induction cs as [|c cs IH]; intros s s1 a Hrun.
  - injection Hrun as _ <-. rewrite app_nil_r. reflexivity.
  - cbn [run_calls] in Hrun.
    destruct (invoke exec c s) as [[[]|e] s0] eqn:Hc; [|discriminate Hrun].
    rewrite (IH _ _ _ Hrun).
    unfold invoke in Hc. destruct (exec c (world s)); [|discriminate Hc].
    injection Hc as <-. cbn [issued]. rewrite <- app_assoc. reflexivity.
Qed.

(** In the self-only variant, for any runtime whose calls all return,
    [forward] returns after issuing five kernels in this order (in a debug
    build with the device check between them). *)
Lemma forward_self_only_calls (NDEBUG : bool) (d : OpenDecoder)
    (from_tensor memory_tensor key_cache_ value_cache_ key_mem_cache_
       value_mem_cache_ memory_sequence_length decoder_output : ptr)
    (step : Z) (s : machine W) :
  (forall c w, exists w', exec c w = completes w') ->
  exists s',
    forward exec NDEBUG d from_tensor memory_tensor key_cache_ value_cache_
      key_mem_cache_ value_mem_cache_ memory_sequence_length decoder_output
      step false s = (normal tt, s') /\
    List.filter is_kernel (issued s')
    = List.filter is_kernel (issued s) ++
      [decoder_norm1 from_tensor
         (gamma (self_layernorm (param_ d))) (beta (self_layernorm (param_ d)))
         (norm_from_tensor_buf_ d) (batch_size_ d) (hidden_units_ d);
       masked_multi_head_attention (norm_from_tensor_buf_ d)
         key_cache_ value_cache_ (masked_output_buf_ d) step;
       decoder_norm2 from_tensor
         (gamma (ffn_layernorm (param_ d))) (beta (ffn_layernorm (param_ d)))
         (bias (attention_output_weight (self_attention (param_ d))))
         (masked_output_buf_ d) (norm_masked_output_buf_ d)
         (batch_size_ d) (hidden_units_ d);
       ffn (norm_masked_output_buf_ d) (ffn_inner_buf_ d) decoder_output
         (batch_size_ d) (Int.mul 4 (hidden_units_ d)) (hidden_units_ d) GELU;
       add_bias_input decoder_output (masked_output_buf_ d)
         (batch_size_ d) (hidden_units_ d)].
Proof.
  intros Hexec. rewrite forward_run.
  destruct (run_calls_complete exec
              (forward_calls NDEBUG d from_tensor memory_tensor key_cache_ value_cache_
                 key_mem_cache_ value_mem_cache_ memory_sequence_length decoder_output
                 step false) Hexec s) as (s' & -> & Hissued).
  exists s'. split; [reflexivity|].
  rewrite Hissued, List.filter_app. f_equal.
  destruct NDEBUG; reflexivity.
Qed.

(** The same for the self+cross variant: seven kernels, in this order. *)
Lemma forward_cross_sequence (NDEBUG : bool) (d : OpenDecoder)
    (from_tensor memory_tensor key_cache_ value_cache_ key_mem_cache_
       value_mem_cache_ memory_sequence_length decoder_output : ptr)
    (step : Z) (s : machine W) :
  (forall c w, exists w', exec c w = completes w') ->
  exists s',
    forward exec NDEBUG d from_tensor memory_tensor key_cache_ value_cache_
      key_mem_cache_ value_mem_cache_ memory_sequence_length decoder_output
      step true s = (normal tt, s') /\
    List.filter is_kernel (issued s')
    = List.filter is_kernel (issued s) ++
      cross_kernels d from_tensor memory_tensor key_cache_ value_cache_
        key_mem_cache_ value_mem_cache_ memory_sequence_length decoder_output step.
Proof.
  intros Hexec. rewrite forward_run.
  destruct (run_calls_complete exec
              (forward_calls NDEBUG d from_tensor memory_tensor key_cache_ value_cache_
                 key_mem_cache_ value_mem_cache_ memory_sequence_length decoder_output
                 step true) Hexec s) as (s' & -> & Hissued).
  exists s'. split; [reflexivity|].
  rewrite Hissued, List.filter_app. f_equal.
  destruct NDEBUG; reflexivity.
Qed.

(** C9: if a call that [forward] issues throws a device execution error,
    with all the calls before it having returned, then [forward] ends by
    throwing that same error: the call that threw is the last one issued,
    none of the calls that would follow is issued, and no call is issued a
    second time. *)
Theorem forward_propagates_device_error (NDEBUG : bool) (d : OpenDecoder)
    (from_tensor memory_tensor key_cache_ value_cache_ key_mem_cache_
       value_mem_cache_ memory_sequence_length decoder_output : ptr)
    (step : Z) (is_cross_attention : bool)
    (cs1 cs2 : list call) (c : call) (s s1 : machine W) (what : string) (w : W) :
  forward_calls NDEBUG d from_tensor memory_tensor key_cache_ value_cache_
    key_mem_cache_ value_mem_cache_ memory_sequence_length decoder_output
    step is_cross_attention = cs1 ++ c :: cs2 ->
  run_calls exec cs1 s = (normal tt, s1) ->
  exec c (world s1) = throws (device_execution_error what) w ->
  forward exec NDEBUG d from_tensor memory_tensor key_cache_ value_cache_
    key_mem_cache_ value_mem_cache_ memory_sequence_length decoder_output
    step is_cross_attention s
  = (abrupt (device_execution_error what),
     {| world := w; issued := issued s ++ cs1 ++ [c] |}).
Proof.
  intros Hcalls Hrun Hthrow.
  rewrite forward_run, Hcalls, run_calls_app, Hrun.
  cbn [run_calls]. unfold invoke. rewrite Hthrow.
  rewrite (run_calls_normal_issued _ _ _ _ Hrun), <- app_assoc.
  reflexivity.
Qed.

(** What the catch clause does to the other exceptions: one of a class
    derived from [std::runtime_error] reaches the caller as a plain
    [std::runtime_error] with the message of its base, any other
    unchanged. *)
Lemma forward_rethrows (NDEBUG : bool) (d : OpenDecoder)
    (from_tensor memory_tensor key_cache_ value_cache_ key_mem_cache_
       value_mem_cache_ memory_sequence_length decoder_output : ptr)
    (step : Z) (is_cross_attention : bool)
    (s s' : machine W) (e : exception) :
  run_calls exec
    (forward_calls NDEBUG d from_tensor memory_tensor key_cache_ value_cache_
       key_mem_cache_ value_mem_cache_ memory_sequence_length decoder_output
       step is_cross_attention) s = (abrupt e, s') ->
  forward exec NDEBUG d from_tensor memory_tensor key_cache_ value_cache_
    key_mem_cache_ value_mem_cache_ memory_sequence_length decoder_output
    step is_cross_attention s
  = (abrupt match e with
            | runtime_error_derived _ base_what _ => runtime_error base_what
            | _ => e
            end, s').
Proof.
  intros Hrun. rewrite forward_run, Hrun. destruct e; reflexivity.
Qed.

End ForwardProperties.

Lemma forward_propagates_device_error_witness :
  forward failing_exec true (bound_decoder FP32 1 1 1) 8192 0 8196 8200 0 0 0 8204 3 false
    {| world := tt; issued := [] |}
  = (abrupt (device_execution_error "CUDA runtime error"),
     {| world := tt;
        issued := [decoder_norm1 8192 64 68 4096 1 1;
                   masked_multi_head_attention 4096 8196 8200 4116 3;
                   decoder_norm2 8192 144 148 100 4116 4120 1 1] |}).
Proof.
  apply (forward_propagates_device_error failing_exec true (bound_decoder FP32 1 1 1)
           8192 0 8196 8200 0 0 0 8204 3 false
           [decoder_norm1 8192 64 68 4096 1 1;
            masked_multi_head_attention 4096 8196 8200 4116 3]
           [ffn 4120 4132 8204 1 4 1 GELU; add_bias_input 8204 4116 1 1]
           (decoder_norm2 8192 144 148 100 4116 4120 1 1)
           {| world := tt; issued := [] |}
           {| world := tt;
              issued := [decoder_norm1 8192 64 68 4096 1 1;
                         masked_multi_head_attention 4096 8196 8200 4116 3] |}
           "CUDA runtime error" tt);
    reflexivity.
Defined.

(** ** What a step leaves untouched *)

Section Frame.

Context {tensor : Type}.
Variable d : OpenDecoder.
Variable exec : call -> (ptr -> tensor) -> outcome (ptr -> tensor).
Hypothesis exec_footprint : respects_footprint d exec.

(** A buffer that none of the calls may write holds after them what it
    held before, whether they all return or one throws. *)
Lemma run_calls_frame (p : ptr) (cs : list call) : forall s : machine (ptr -> tensor),
  Forall (fun c => p ∉ may_write d c) cs ->
  world (run_calls exec cs s).2 p = world s p.
Proof.
  induction cs as [|c cs IH]; intros s Hcs; [reflexivity|].
  inversion Hcs as [|? ? Hc Hcs']; subst.
  cbn [run_calls]. unfold invoke.
  pose proof (exec_footprint c (world s) p Hc) as Hp.
  destruct (exec c (world s)) as [w|e w]; cbn [world_after] in Hp.
  - rewrite IH by assumption. exact Hp.
  - exact Hp.
Qed.

End Frame.

Lemma forward_final_state {W : Type} (exec : call -> W -> outcome W) (NDEBUG : bool)
    (d : OpenDecoder)
    (from_tensor memory_tensor key_cache_ value_cache_ key_mem_cache_
       value_mem_cache_ memory_sequence_length decoder_output : ptr)
    (step : Z) (is_cross_attention : bool) (s : machine W) :
  (forward exec NDEBUG d from_tensor memory_tensor key_cache_ value_cache_
     key_mem_cache_ value_mem_cache_ memory_sequence_length decoder_output
     step is_cross_attention s).2
  = (run_calls exec
       (forward_calls NDEBUG d from_tensor memory_tensor key_cache_ value_cache_
          key_mem_cache_ value_mem_cache_ memory_sequence_length decoder_output
          step is_cross_attention) s).2.
Proof.
  rewrite forward_run. destruct (run_calls _ _ _) as [[a|e] s']; reflexivity.
Qed.

(** Every call of a self-only step writes within [self_only_written]. *)
Lemma self_only_calls_write (NDEBUG : bool) (d : OpenDecoder)
    (from_tensor memory_tensor key_cache_ value_cache_ key_mem_cache_
       value_mem_cache_ memory_sequence_length decoder_output : ptr)
    (step : Z) (p : ptr) :
  p ∉ self_only_written d key_cache_ value_cache_ decoder_output ->
  Forall (fun c => p ∉ may_write d c)
    (forward_calls NDEBUG d from_tensor memory_tensor key_cache_ value_cache_
       key_mem_cache_ value_mem_cache_ memory_sequence_length decoder_output
       step false).
Proof.
  unfold self_only_written, attention_scratch. cbn [app].
  rewrite !not_elem_of_cons. intros (? & ? & ? & ? & ? & ? & ? & ? & ? & ? & ? & _).
  unfold forward_calls, self_only_kernels, with_debug_checks, debug_calls.
  destruct NDEBUG; cbn [flat_map app];
    repeat match goal with
      | |- Forall _ (_ :: _) => constructor
      | |- Forall _ [] => constructor
      end;
    cbn [may_write]; unfold attention_scratch;
    rewrite ?not_elem_of_cons; repeat split; try assumption; apply not_elem_of_nil.
Qed.

(** C10: in the self-only variant, what [forward] does is the same
    whatever encoder memory tensor, memory key and value caches and memory
    lengths it is given: no call receives them.  And for kernels that write
    only through the pointers to non-const they are handed and the scratch
    buffers of the object, each of those four inputs and of the
    cross-attention-output and normalized-cross-output regions that is not
    also one of the buffers the step writes holds after the call, returned
    or thrown, what it held before. *)
Theorem forward_self_only_frame {tensor : Type}
    (exec : call -> (ptr -> tensor) -> outcome (ptr -> tensor))
    (NDEBUG : bool) (d : OpenDecoder)
    (from_tensor memory_tensor key_cache_ value_cache_ key_mem_cache_
       value_mem_cache_ memory_sequence_length decoder_output : ptr)
    (step : Z) (s : machine (ptr -> tensor)) :
  respects_footprint d exec ->
  let run memory_tensor key_mem_cache_ value_mem_cache_ memory_sequence_length :=
    forward exec NDEBUG d from_tensor memory_tensor key_cache_ value_cache_
      key_mem_cache_ value_mem_cache_ memory_sequence_length decoder_output
      step false s in
  (forall memory_tensor' key_mem_cache' value_mem_cache' memory_sequence_length',
     run memory_tensor' key_mem_cache' value_mem_cache' memory_sequence_length'
     = run memory_tensor key_mem_cache_ value_mem_cache_ memory_sequence_length) /\
  Forall (fun p =>
            p ∉ self_only_written d key_cache_ value_cache_ decoder_output ->
            world (run memory_tensor key_mem_cache_ value_mem_cache_
                     memory_sequence_length).2 p = world s p)
    [memory_tensor; key_mem_cache_; value_mem_cache_; memory_sequence_length;
     cross_output_buf_ d; norm_cross_output_buf_ d].
Proof.
  intros Hexec run. split.
  - intros m' k' v' l'. subst run. cbv beta. rewrite !forward_run. reflexivity.
  - apply List.Forall_forall. intros p _ Hp. subst run. cbv beta.
    rewrite forward_final_state.
    apply (run_calls_frame d exec Hexec).
    apply self_only_calls_write, Hp.
Qed.

(** ** The kernels' contracts *)

Section KernelFacts.

Context {tensor : Type}.
Variable K : collaborators tensor.
Variable d : OpenDecoder.

Lemma write_scratch_frame (c : call) (s0 s : ptr -> tensor) (p : ptr) :
  p ∉ attention_scratch d -> write_scratch K d c s0 s p = s p.
Proof.
  unfold attention_scratch, write_scratch. rewrite !not_elem_of_cons.
  intros (? & ? & ? & ? & _).
  rewrite !fn_lookup_insert_ne by (apply not_eq_sym; assumption). reflexivity.
Qed.

(** The kernels write only what [may_write] lists. *)
Lemma kernel_step_frame (c : call) (s : ptr -> tensor) (p : ptr) :
  p ∉ may_write d c -> kernel_step K d c s p = s p.
Proof.
  destruct c; cbn [may_write kernel_step]; rewrite ?not_elem_of_cons;
    intros Hp; try reflexivity.
  - destruct Hp as (? & _). apply fn_lookup_insert_ne, not_eq_sym. assumption.
  - destruct Hp as (? & ? & ? & Hs).
    rewrite !fn_lookup_insert_ne by (apply not_eq_sym; assumption).
    apply write_scratch_frame, Hs.
  - destruct Hp as (? & ? & ? & Hs).
    rewrite !fn_lookup_insert_ne by (apply not_eq_sym; assumption).
    apply write_scratch_frame, Hs.
  - destruct Hp as (? & ? & _).
    rewrite !fn_lookup_insert_ne by (apply not_eq_sym; assumption). reflexivity.
  - destruct Hp as (? & ? & _).
    rewrite !fn_lookup_insert_ne by (apply not_eq_sym; assumption). reflexivity.
  - destruct Hp as (? & _). apply fn_lookup_insert_ne, not_eq_sym. assumption.
Qed.

Lemma exec_kernels_respects_footprint : respects_footprint d (exec_kernels K d).
Proof. intros c s p Hp. apply kernel_step_frame, Hp. Qed.

Lemma run_calls_exec_kernels (cs : list call) : forall s : machine (ptr -> tensor),
  run_calls (exec_kernels K d) cs s
  = (normal tt,
     {| world := fold_left (fun w c => kernel_step K d c w) cs (world s);
        issued := issued s ++ cs |}).
Proof.
  induction cs as [|c cs IH]; intros s.
  - cbn [run_calls fold_left]. rewrite app_nil_r. destruct s; reflexivity.
  - cbn [run_calls fold_left]. unfold invoke, exec_kernels. rewrite IH.
    cbn [world issued]. rewrite <- app_assoc. reflexivity.
Qed.

(** The calls of the debug check leave device memory as it is. *)
Lemma fold_with_debug_checks (NDEBUG : bool) (ks : list call) :
  forall w : ptr -> tensor,
  fold_left (fun w c => kernel_step K d c w) (with_debug_checks NDEBUG ks) w
  = fold_left (fun w c => kernel_step K d c w) ks w.
Proof.
  unfold with_debug_checks, debug_calls.
  destruct NDEBUG; induction ks as [|k ks IH]; intros w; try reflexivity;
    cbn [flat_map app fold_left kernel_step]; apply IH.
Qed.

Lemma decoder_norm1_writes (from_tensor gamma beta out : ptr) (m n : Z)
    (s : ptr -> tensor) :
  kernel_step K d (decoder_norm1 from_tensor gamma beta out m n) s out
  = LayerNorm K (s from_tensor) (s gamma) (s beta).
Proof. apply fn_lookup_insert. Qed.

Lemma masked_attention_writes (from_tensor key_cache value_cache out : ptr) (step : Z)
    (s : ptr -> tensor) :
  kernel_step K d (masked_multi_head_attention from_tensor key_cache value_cache out step)
    s out
  = (MaskedAttention K (s from_tensor) (s key_cache) (s value_cache) step).1.1.
Proof. apply fn_lookup_insert. Qed.

Lemma masked_attention_writes_key_cache
    (from_tensor key_cache value_cache out : ptr) (step : Z) (s : ptr -> tensor) :
  key_cache <> out ->
  kernel_step K d (masked_multi_head_attention from_tensor key_cache value_cache out step)
    s key_cache
  = (MaskedAttention K (s from_tensor) (s key_cache) (s value_cache) step).1.2.
Proof.
  intros H. cbn [kernel_step].
  rewrite fn_lookup_insert_ne by (apply not_eq_sym; exact H).
  apply fn_lookup_insert.
Qed.

Lemma masked_attention_writes_value_cache
    (from_tensor key_cache value_cache out : ptr) (step : Z) (s : ptr -> tensor) :
  value_cache <> out -> value_cache <> key_cache ->
  kernel_step K d (masked_multi_head_attention from_tensor key_cache value_cache out step)
    s value_cache
  = (MaskedAttention K (s from_tensor) (s key_cache) (s value_cache) step).2.
Proof.
  intros H1 H2. cbn [kernel_step].
  rewrite !fn_lookup_insert_ne by (apply not_eq_sym; assumption).
  apply fn_lookup_insert.
Qed.

Lemma cross_attention_writes
    (from_tensor memory_tensor key_mem_cache value_mem_cache out lens : ptr)
    (max_seq_len step : Z) (s : ptr -> tensor) :
  kernel_step K d
    (cross_multi_head_attention from_tensor memory_tensor key_mem_cache value_mem_cache
       out lens max_seq_len step) s out
  = (CrossAttention K (s from_tensor) (s memory_tensor) (s key_mem_cache)
       (s value_mem_cache) (s lens) max_seq_len step).1.1.
Proof. apply fn_lookup_insert. Qed.

(** norm2 leaves [base + summand + extra-bias] where the summand was. *)
Lemma decoder_norm2_writes_sum (from_tensor gamma beta bias out norm_out : ptr)
    (m n : Z) (s : ptr -> tensor) :
  out <> norm_out ->
  kernel_step K d (decoder_norm2 from_tensor gamma beta bias out norm_out m n) s out
  = tensor_add K (tensor_add K (s from_tensor) (s out)) (s bias).
Proof.
  intros H. cbn [kernel_step].
  rewrite fn_lookup_insert_ne by (apply not_eq_sym; exact H).
  apply fn_lookup_insert.
Qed.

Lemma decoder_norm2_writes_norm (from_tensor gamma beta bias out norm_out : ptr)
    (m n : Z) (s : ptr -> tensor) :
  kernel_step K d (decoder_norm2 from_tensor gamma beta bias out norm_out m n) s norm_out
  = LayerNorm K (tensor_add K (tensor_add K (s from_tensor) (s out)) (s bias))
      (s gamma) (s beta).
Proof. apply fn_lookup_insert. Qed.

Lemma ffn_writes (input inner out : ptr) (m inner_size n : Z) (a : ActivationType)
    (s : ptr -> tensor) :
  kernel_step K d (ffn input inner out m inner_size n a) s out
  = (FeedForward K (s input) a).1.
Proof. apply fn_lookup_insert. Qed.

Lemma ffn_writes_inner (input inner out : ptr) (m inner_size n : Z)
    (a : ActivationType) (s : ptr -> tensor) :
  inner <> out ->
  kernel_step K d (ffn input inner out m inner_size n a) s inner
  = (FeedForward K (s input) a).2.
Proof.
  intros H. cbn [kernel_step].
  rewrite fn_lookup_insert_ne by (apply not_eq_sym; exact H).
  apply fn_lookup_insert.
Qed.

Lemma add_bias_input_writes (out input : ptr) (m n : Z) (s : ptr -> tensor) :
  kernel_step K d (add_bias_input out input m n) s out
  = tensor_add K (s out) (s input).
Proof. apply fn_lookup_insert. Qed.

End KernelFacts.

(** Pointers that are not the same, from the hypotheses in context. *)
Ltac distinct := first [assumption | apply not_eq_sym; assumption].

(** A buffer lies outside what a call may write. *)
Ltac outside_footprint :=
  cbn [may_write]; unfold attention_scratch;
  rewrite ?not_elem_of_cons; repeat split; try apply not_elem_of_nil; distinct.

(** Reads a buffer back through the kernels of a step, newest first. *)
Ltac read_back :=
  repeat first
    [ rewrite add_bias_input_writes
    | rewrite ffn_writes
    | rewrite decoder_norm2_writes_norm
    | rewrite decoder_norm2_writes_sum by distinct
    | rewrite cross_attention_writes
    | rewrite masked_attention_writes
    | rewrite decoder_norm1_writes
    | rewrite kernel_step_frame by outside_footprint ].

(** C7, as stated, fails on its last clause.  With the integer
    collaborators and [1] in every buffer, cross attention puts out 5 and
    the cross-attention output bias is 1, so that the stated residual is 6
    and the stated output [11 + 6 = 17]; the step leaves [11 + 10 = 21], because
    the residual it adds is the cross-output region, where the second
    norm2 has left the masked-output region (4) plus 5 plus 1. *)
Lemma cross_residual_is_not_cross_output_plus_bias :
  let d := bound_decoder FP32 1 1 1 in
  let final :=
    world (forward (exec_kernels integer_collaborators d) true d
             8192 8208 8196 8200 8212 8216 8220 8204 3 true
             {| world := ones; issued := [] |}).2 in
  final 8204 = 21 /\
  specified_cross_variant_output integer_collaborators d ones
    8192 8208 8196 8200 8212 8216 8220 3 = 17 /\
  final 8204
  <> specified_cross_variant_output integer_collaborators d ones
       8192 8208 8196 8200 8212 8216 8220 3.
Proof. vm_compute. repeat split; congruence. Qed.

(** C7, amended: in the self+cross variant, with kernels that meet their
    contracts and buffers that do not alias, [forward] issues norm1,
    masked self-attention, norm2 with the cross-attention normalization
    weights and the self-attention output bias, cross-attention with its
    query from the normalized-masked-output region over the encoder memory
    and its caches, a second norm2 of the masked-output region and the
    cross-output region with the cross-attention output bias under the
    feed-forward normalization weights, the feed-forward block with RELU on
    the normalized-cross-output region, and last the addition of the
    cross-output region onto the feed-forward output: the residual added
    is what the second norm2 left there,
    [masked-output region + cross-output + cross-attention output bias]. *)
Theorem forward_cross_sequence_and_residual {tensor : Type}
    (K : collaborators tensor) (NDEBUG : bool) (d : OpenDecoder)
    (from_tensor memory_tensor key_cache_ value_cache_ key_mem_cache_
       value_mem_cache_ memory_sequence_length decoder_output : ptr)
    (step : Z) (s : ptr -> tensor) :
  NoDup (cross_written d key_cache_ value_cache_ key_mem_cache_ value_mem_cache_
           decoder_output) ->
  Forall (fun p => p ∉ cross_written d key_cache_ value_cache_ key_mem_cache_
                        value_mem_cache_ decoder_output)
    (cross_read_only d from_tensor memory_tensor memory_sequence_length) ->
  exists s',
    forward (exec_kernels K d) NDEBUG d from_tensor memory_tensor key_cache_
      value_cache_ key_mem_cache_ value_mem_cache_ memory_sequence_length
      decoder_output step true {| world := s; issued := [] |} = (normal tt, s') /\
    List.filter is_kernel (issued s')
    = [decoder_norm1 from_tensor
         (gamma (self_layernorm (param_ d))) (beta (self_layernorm (param_ d)))
         (norm_from_tensor_buf_ d) (batch_size_ d) (hidden_units_ d);
       masked_multi_head_attention (norm_from_tensor_buf_ d)
         key_cache_ value_cache_ (masked_output_buf_ d) step;
       decoder_norm2 from_tensor
         (gamma (cross_layernorm (param_ d))) (beta (cross_layernorm (param_ d)))
         (bias (attention_output_weight (self_attention (param_ d))))
         (masked_output_buf_ d) (norm_masked_output_buf_ d)
         (batch_size_ d) (hidden_units_ d);
       cross_multi_head_attention (norm_masked_output_buf_ d) memory_tensor
         key_mem_cache_ value_mem_cache_ (cross_output_buf_ d)
         memory_sequence_length (max_seq_len_ d) step;
       decoder_norm2 (masked_output_buf_ d)
         (gamma (ffn_layernorm (param_ d))) (beta (ffn_layernorm (param_ d)))
         (bias (attention_output_weight (cross_attention (param_ d))))
         (cross_output_buf_ d) (norm_cross_output_buf_ d)
         (batch_size_ d) (hidden_units_ d);
       ffn (norm_cross_output_buf_ d) (ffn_inner_buf_ d) decoder_output
         (batch_size_ d) (Int.mul 4 (hidden_units_ d)) (hidden_units_ d) RELU;
       add_bias_input decoder_output (cross_output_buf_ d)
         (batch_size_ d) (hidden_units_ d)] /\
    world s' decoder_output
    = cross_variant_output K d s from_tensor memory_tensor key_cache_ value_cache_
        key_mem_cache_ value_mem_cache_ memory_sequence_length step.
Proof.
  intros Hwritten Hread.
  rewrite forward_run, run_calls_exec_kernels.
  eexists. split; [reflexivity|]. cbn [world issued app]. split.
  - destruct NDEBUG; reflexivity.
  - unfold forward_calls. rewrite fold_with_debug_checks.
    unfold cross_kernels, cross_variant_output, cross_variant_value.
    cbn [fold_left].
    unfold cross_written in Hwritten, Hread. unfold cross_read_only in Hread.
    rewrite !list.NoDup_cons, !not_elem_of_cons in Hwritten.
    repeat match goal with
      | H : Forall _ (_ :: _) |- _ => inversion_clear H
      end.
    repeat match goal with
      | H : _ ∉ _ :: _ |- _ => rewrite !not_elem_of_cons in H
      end.
    destruct_and!.
    read_back. reflexivity.
Qed.

Lemma forward_cross_sequence_and_residual_witness :
  exists s',
    forward (exec_kernels integer_collaborators (bound_decoder FP32 1 1 1)) true
      (bound_decoder FP32 1 1 1) 8192 8208 8196 8200 8212 8216 8220 8204 3 true
      {| world := ones; issued := [] |} = (normal tt, s') /\
    world s' 8204 = 21.
Proof.
  destruct (forward_cross_sequence_and_residual integer_collaborators true
              (bound_decoder FP32 1 1 1) 8192 8208 8196 8200 8212 8216 8220 8204 3 ones)
    as (s' & Hrun & _ & Hout).
  - compute_done.
  - compute_done.
  - exists s'. split; [exact Hrun|]. rewrite Hout. reflexivity.
Defined.

Lemma forward_self_only_frame_witness :
  let d := bound_decoder FP32 1 1 1 in
  let final :=
    world (forward (exec_kernels integer_collaborators d) false d
             8192 8208 8196 8200 8212 8216 8220 8204 3 false
             {| world := ones; issued := [] |}).2 in
  Forall (fun p => final p = 1)
    [8208; 8212; 8216; 8220; cross_output_buf_ d; norm_cross_output_buf_ d].
Proof.
  intros d final.
  destruct (forward_self_only_frame (exec_kernels integer_collaborators d) false d
              8192 8208 8196 8200 8212 8216 8220 8204 3
              {| world := ones; issued := [] |}
              (exec_kernels_respects_footprint integer_collaborators d))
    as [_ Hframe].
  apply List.Forall_forall. intros p Hp.
  rewrite List.Forall_forall in Hframe.
  apply (Hframe p Hp).
  cbn in Hp. intros Hin.
  decompose [or] Hp; try contradiction; subst p; revert Hin; compute_done.
Defined.

(** C6, as stated, fails on its last step.  With the integer
    collaborators and [1] in every buffer, masked attention puts out 2 and
    the self-attention output bias is 1, so that the stated residual is 3
    and the stated output [5 + 3 = 8]; the step leaves [5 + 4 = 9], because
    the residual it adds is the masked-output region, where norm2 has left
    the original input (1) plus 2 plus 1. *)
Lemma self_only_residual_is_not_masked_output_plus_bias :
  let d := bound_decoder FP32 1 1 1 in
  let final :=
    world (forward (exec_kernels integer_collaborators d) true d
             8192 8208 8196 8200 8212 8216 8220 8204 3 false
             {| world := ones; issued := [] |}).2 in
  final (masked_output_buf_ d) = 4 /\
  final 8204 = 9 /\
  specified_self_only_output integer_collaborators d ones 8192 8196 8200 3 = 8 /\
  final 8204
  <> specified_self_only_output integer_collaborators d ones 8192 8196 8200 3.
Proof. vm_compute. repeat split; congruence. Qed.

(** C6, amended: in the self-only variant, with kernels that meet their
    contracts and buffers that do not alias, [forward] performs exactly
    this sequence: (1) LayerNorm of the input with the self-attention
    normalization weights into the normalized-input region; (2) masked
    self-attention from that region into the masked-output region,
    mutating the self key and value caches; (3) norm2 of the original input
    and the masked-output region with the self-attention output bias,
    under the feed-forward normalization weights, into the
    normalized-masked-output region, leaving
    [original input + masked-output + bias] in the masked-output region;
    (4) the feed-forward block with GELU on the normalized-masked-output
    region into the decoder output; (5) the addition of the masked-output
    region onto the decoder output: the residual added is what norm2 left
    there, the original input included. *)
Theorem forward_self_only_sequence_and_residual {tensor : Type}
    (K : collaborators tensor) (NDEBUG : bool) (d : OpenDecoder)
    (from_tensor memory_tensor key_cache_ value_cache_ key_mem_cache_
       value_mem_cache_ memory_sequence_length decoder_output : ptr)
    (step : Z) (s : ptr -> tensor) :
  NoDup (self_only_written d key_cache_ value_cache_ decoder_output) ->
  Forall (fun p => p ∉ self_only_written d key_cache_ value_cache_ decoder_output)
    (self_only_read_only d from_tensor) ->
  let norm_from :=
    LayerNorm K (s from_tensor) (s (gamma (self_layernorm (param_ d))))
      (s (beta (self_layernorm (param_ d)))) in
  let attention := MaskedAttention K norm_from (s key_cache_) (s value_cache_) step in
  let masked_sum :=
    tensor_add K (tensor_add K (s from_tensor) attention.1.1)
      (s (bias (attention_output_weight (self_attention (param_ d))))) in
  let norm_masked :=
    LayerNorm K masked_sum (s (gamma (ffn_layernorm (param_ d))))
      (s (beta (ffn_layernorm (param_ d)))) in
  exists s',
    forward (exec_kernels K d) NDEBUG d from_tensor memory_tensor key_cache_
      value_cache_ key_mem_cache_ value_mem_cache_ memory_sequence_length
      decoder_output step false {| world := s; issued := [] |} = (normal tt, s') /\
    List.filter is_kernel (issued s')
    = [decoder_norm1 from_tensor
         (gamma (self_layernorm (param_ d))) (beta (self_layernorm (param_ d)))
         (norm_from_tensor_buf_ d) (batch_size_ d) (hidden_units_ d);
       masked_multi_head_attention (norm_from_tensor_buf_ d)
         key_cache_ value_cache_ (masked_output_buf_ d) step;
       decoder_norm2 from_tensor
         (gamma (ffn_layernorm (param_ d))) (beta (ffn_layernorm (param_ d)))
         (bias (attention_output_weight (self_attention (param_ d))))
         (masked_output_buf_ d) (norm_masked_output_buf_ d)
         (batch_size_ d) (hidden_units_ d);
       ffn (norm_masked_output_buf_ d) (ffn_inner_buf_ d) decoder_output
         (batch_size_ d) (Int.mul 4 (hidden_units_ d)) (hidden_units_ d) GELU;
       add_bias_input decoder_output (masked_output_buf_ d)
         (batch_size_ d) (hidden_units_ d)] /\
    world s' (norm_from_tensor_buf_ d) = norm_from /\
    world s' key_cache_ = attention.1.2 /\
    world s' value_cache_ = attention.2 /\
    world s' (masked_output_buf_ d) = masked_sum /\
    world s' (norm_masked_output_buf_ d) = norm_masked /\
    world s' (ffn_inner_buf_ d) = (FeedForward K norm_masked GELU).2 /\
    world s' decoder_output = tensor_add K (FeedForward K norm_masked GELU).1 masked_sum /\
    world s' decoder_output
    = self_only_output K d s from_tensor key_cache_ value_cache_ step.
Proof.
  intros Hwritten Hread norm_from attention masked_sum norm_masked.
  subst norm_from attention masked_sum norm_masked.
  rewrite forward_run, run_calls_exec_kernels.
  eexists. split; [reflexivity|]. cbn [world issued app]. split.
  { destruct NDEBUG; reflexivity. }
  unfold forward_calls. rewrite fold_with_debug_checks.
  unfold self_only_kernels, self_only_output. cbn [fold_left].
  unfold self_only_written, attention_scratch in Hwritten, Hread.
  unfold self_only_read_only in Hread. cbn [app] in Hwritten, Hread.
  rewrite !list.NoDup_cons, !not_elem_of_cons in Hwritten.
  repeat match goal with
    | H : Forall _ (_ :: _) |- _ => inversion_clear H
    end.
  repeat match goal with
    | H : _ ∉ _ :: _ |- _ => rewrite !not_elem_of_cons in H
    end.
  destruct_and!.
  refine (conj _ (conj _ (conj _ (conj _ (conj _ (conj _ (conj _ _))))))).
  - read_back. reflexivity.
  - read_back. rewrite masked_attention_writes_key_cache by distinct.
    read_back. reflexivity.
  - read_back. rewrite masked_attention_writes_value_cache by distinct.
    read_back. reflexivity.
  - read_back. reflexivity.
  - read_back. reflexivity.
  - read_back. rewrite ffn_writes_inner by distinct.
    read_back. reflexivity.
  - read_back. reflexivity.
  - read_back. reflexivity.
Qed.

Lemma forward_self_only_sequence_and_residual_witness :
  exists s',
    forward (exec_kernels integer_collaborators (bound_decoder FP32 1 1 1)) true
      (bound_decoder FP32 1 1 1) 8192 8208 8196 8200 8212 8216 8220 8204 3 false
      {| world := ones; issued := [] |} = (normal tt, s') /\
    List.filter is_kernel (issued s')
    = [decoder_norm1 8192 64 68 4096 1 1;
       masked_multi_head_attention 4096 8196 8200 4116 3;
       decoder_norm2 8192 144 148 100 4116 4120 1 1;
       ffn 4120 4132 8204 1 4 1 GELU;
       add_bias_input 8204 4116 1 1] /\
    world s' 4116 = 4 /\
    world s' 8204 = 9.
Proof.
  destruct (forward_self_only_sequence_and_residual integer_collaborators true
              (bound_decoder FP32 1 1 1) 8192 8208 8196 8200 8212 8216 8220 8204 3 ones)
    as (s' & Hrun & Hcalls & _ & _ & _ & Hmasked & _ & _ & Hout & _).
  - compute_done.
  - compute_done.
  - exists s'. split; [exact Hrun|]. split; [exact Hcalls|].
    split; [exact Hmasked | exact Hout].
Defined.

(** * Further properties *)

(** ** The constructor *)

(** The object the constructor returns on its fallback path. *)
Lemma ctor_fallback_result (op : OperationType) (u : indeterminate)
    (file : option (list field))
    (batch_size seq_len head_num size_per_head memory_hidden_units : Z) :
  falls_back file ->
  (OpenDecoder_ctor op u file
     batch_size seq_len head_num size_per_head memory_hidden_units).2
  = returns (construct op u (replicate 5 (default_algo op)) false
               batch_size seq_len head_num size_per_head memory_hidden_units).
Proof.
  intros H. unfold OpenDecoder_ctor.
  destruct file as [input|]; cbn [falls_back] in H.
  - destruct (fscanf gemm_config_format input) as [err vs]. cbn [fst] in H.
    apply Z.eqb_neq in H. rewrite H. cbn [negb snd].
    rewrite fill_default_five; [reflexivity|].
    rewrite assign_all_length. reflexivity.
  - reflexivity.
Qed.

Lemma default_algo_valid (op : OperationType) : valid_algo op (default_algo op) = true.
Proof. destruct op; reflexivity. Qed.

Lemma find_pointwise {A : Type} (f g : A -> bool) (l : list A) :
  (forall x, f x = g x) -> find f l = find g l.
Proof.
  intros H. induction l as [|x l IH]; [reflexivity|].
  cbn [find]. rewrite H, IH. reflexivity.
Qed.

Lemma invalid_algo_FP32 (x : Z) :
  out_of_range CUBLAS_GEMM_ALGO23 CUBLAS_GEMM_DEFAULT x = invalid_algo FP32 x.
Proof. unfold invalid_algo. rewrite valid_algo_FP32, negb_involutive. reflexivity. Qed.

Lemma invalid_algo_FP16 (x : Z) :
  out_of_range CUBLAS_GEMM_ALGO15_TENSOR_OP CUBLAS_GEMM_DEFAULT_TENSOR_OP x
  = invalid_algo FP16 x.
Proof. unfold invalid_algo. rewrite valid_algo_FP16, negb_involutive. reflexivity. Qed.

(** The tuning file either makes the constructor fall back, or starts with
    the twelve fields of the format. *)
Lemma tuning_file_cases (file : option (list field)) :
  falls_back file \/
  exists i0 f0 x0 f1 x1 f2 x2 f3 x3 f4 x4 f5 rest,
    file = Some (int_literal i0 :: f0 :: int_literal x0 :: f1 :: int_literal x1 :: f2 ::
                 int_literal x2 :: f3 :: int_literal x3 :: f4 :: int_literal x4 :: f5 ::
                 rest).
Proof.
  destruct file as [input|]; [|left; exact I].
  destruct (Z.eq_dec (fscanf gemm_config_format input).1 7) as [H|H].
  - right. destruct (fscanf_full_parse _ H)
      as (i0 & f0 & x0 & f1 & x1 & f2 & x2 & f3 & x3 & f4 & x4 & f5 & rest & ->).
    repeat eexists.
  - left. exact H.
Qed.

(** X1: whatever the tuning file holds and whatever the storage held
    before, an object that the constructor returns holds five algorithm
    ids, each inside the range of its precision. *)
Theorem ctor_returns_valid_ids (op : OperationType) (u : indeterminate)
    (file : option (list field))
    (batch_size seq_len head_num size_per_head memory_hidden_units : Z)
    (d : OpenDecoder) :
  (OpenDecoder_ctor op u file
     batch_size seq_len head_num size_per_head memory_hidden_units).2 = returns d ->
  length (cublasAlgo_ d) = 5%nat /\
  forallb (valid_algo op) (cublasAlgo_ d) = true.
Proof.
  intros Hd.
  destruct (tuning_file_cases file) as
    [Hfb|(i0 & f0 & x0 & f1 & x1 & f2 & x2 & f3 & x3 & f4 & x4 & f5 & rest & ->)].
  - rewrite (ctor_fallback_result _ _ _ _ _ _ _ _ Hfb) in Hd. injection Hd as <-.
    cbn [cublasAlgo_ construct replicate length forallb].
    rewrite default_algo_valid. split; reflexivity.
  - rewrite ctor_on_twelve_fields in Hd.
    set (ids := [Int.wrap x0; Int.wrap x1; Int.wrap x2; Int.wrap x3; Int.wrap x4]) in *.
    destruct op.
    + pose proof (find_out_of_range _ _ _ ids valid_algo_FP32) as Hf.
      destruct (find _ ids) as [x|]; [discriminate Hd|].
      injection Hd as <-. split; [reflexivity | exact Hf].
    + pose proof (find_out_of_range _ _ _ ids valid_algo_FP16) as Hf.
      destruct (find _ ids) as [x|]; [discriminate Hd|].
      injection Hd as <-. split; [reflexivity | exact Hf].
Qed.

Lemma ctor_returns_valid_ids_witness :
  forallb (valid_algo FP32) [4; 5; 6; 7; 8] = true.
Proof.
  refine (proj2 (ctor_returns_valid_ids FP32 example_junk (Some (example_config 1 5))
                   1 8 1 1 16
                   (construct FP32 example_junk [4; 5; 6; 7; 8] false 1 8 1 1 16) _)).
  vm_compute. reflexivity.
Defined.

(** X2: in a build with or without [NDEBUG], the constructor ends the
    process only with status [-1], only when the tuning file was there and
    parsed in full, and with one call of [printf] made, after the call
    trace of a debug build: the error line of the precision for the first
    of the five ids, in the order of the file, that is outside the range
    of the precision. *)
Theorem ctor_exits_on_first_invalid_id (NDEBUG : bool) (op : OperationType)
    (u : indeterminate) (file : option (list field))
    (batch_size seq_len head_num size_per_head memory_hidden_units : Z)
    (status : Z) :
  let r := OpenDecoder_ctor_in_build NDEBUG op u file
             batch_size seq_len head_num size_per_head memory_hidden_units in
  r.2 = exits status ->
  status = -1 /\
  exists input x,
    file = Some input /\
    (fscanf gemm_config_format input).1 = 7 /\
    find (invalid_algo op) (scanned_ints (fscanf gemm_config_format input).2) = Some x /\
    r.1 = debug_trace NDEBUG ++ [printed (printf (error_format op) [x])].
Proof.
  intros r Hexit. subst r. unfold OpenDecoder_ctor_in_build in *.
  cbn [fst snd] in *.
  destruct (tuning_file_cases file) as
    [Hfb|(i0 & f0 & x0 & f1 & x1 & f2 & x2 & f3 & x3 & f4 & x4 & f5 & rest & ->)].
  - rewrite (ctor_fallback_result _ _ _ _ _ _ _ _ Hfb) in Hexit. discriminate Hexit.
  - rewrite ctor_on_twelve_fields in Hexit |- *.
    set (ids := [Int.wrap x0; Int.wrap x1; Int.wrap x2; Int.wrap x3; Int.wrap x4]) in *.
    destruct op.
    + rewrite (find_pointwise _ _ ids invalid_algo_FP32) in Hexit |- *.
      destruct (find (invalid_algo FP32) ids) as [x|] eqn:Hfind; [|discriminate Hexit].
      injection Hexit as <-. split; [reflexivity|].
      eexists _, x. split; [reflexivity|].
      rewrite fscanf_twelve_fields. cbn [fst snd scanned_ints omap list_omap].
      split; [reflexivity|]. split; [exact Hfind | reflexivity].
    + rewrite (find_pointwise _ _ ids invalid_algo_FP16) in Hexit |- *.
      destruct (find (invalid_algo FP16) ids) as [x|] eqn:Hfind; [|discriminate Hexit].
      injection Hexit as <-. split; [reflexivity|].
      eexists _, x. split; [reflexivity|].
      rewrite fscanf_twelve_fields. cbn [fst snd scanned_ints omap list_omap].
      split; [reflexivity|]. split; [exact Hfind | reflexivity].
Qed.

Lemma ctor_exits_on_first_invalid_id_witness :
  exists input x,
    Some (example_config 1 5) = Some input /\
    (fscanf gemm_config_format input).1 = 7 /\
    find (invalid_algo FP16) (scanned_ints (fscanf gemm_config_format input).2) = Some x /\
    (OpenDecoder_ctor_in_build false FP16 example_junk (Some (example_config 1 5))
       1 8 1 1 16).1
    = [PRINT_FUNC_NAME_; printed (printf (error_format FP16) [x])].
Proof.
  refine (proj2 (ctor_exits_on_first_invalid_id false FP16 example_junk
                   (Some (example_config 1 5)) 1 8 1 1 16 (-1) _)).
  vm_compute. reflexivity.
Defined.

(** X3: of a tuning file that parses in full, the leading integer and
    float, the floats after the second, third and fourth id and whatever
    follows the twelfth field have no influence on what the constructor
    does. *)
Theorem ctor_ignores_skipped_fields (op : OperationType) (u : indeterminate)
    (x0 x1 x2 x3 x4 : Z) (f1 f5 : field)
    (i0 i0' : Z) (f0 f2 f3 f4 f0' f2' f3' f4' : field) (rest rest' : list field)
    (batch_size seq_len head_num size_per_head memory_hidden_units : Z) :
  OpenDecoder_ctor op u
    (Some (int_literal i0 :: f0 :: int_literal x0 :: f1 :: int_literal x1 :: f2 ::
           int_literal x2 :: f3 :: int_literal x3 :: f4 :: int_literal x4 :: f5 :: rest))
    batch_size seq_len head_num size_per_head memory_hidden_units
  = OpenDecoder_ctor op u
      (Some (int_literal i0' :: f0' :: int_literal x0 :: f1 :: int_literal x1 :: f2' ::
             int_literal x2 :: f3' :: int_literal x3 :: f4' :: int_literal x4 :: f5 ::
             rest'))
      batch_size seq_len head_num size_per_head memory_hidden_units.
Proof.
  rewrite !ctor_on_twelve_fields. reflexivity.
Qed.

Lemma float_lt_nan_r (x : float) : float_lt x S754_nan = false.
Proof. destruct x as [ | [|] | | ]; reflexivity. Qed.

Lemma float_mul_nan_l (y : float) : float_mul S754_nan y = S754_nan.
Proof. destruct y; reflexivity. Qed.

(** X4: of a tuning file that parses in full with ids in range, a timing
    that is not a number, be it the float after the first id or the last
    float, leaves fusion disabled. *)
Theorem nan_timing_disables_fusion (op : OperationType) (u : indeterminate)
    (i0 x0 x1 x2 x3 x4 : Z) (f0 f1 f2 f3 f4 f5 : field) (rest : list field)
    (batch_size seq_len head_num size_per_head memory_hidden_units : Z) :
  forallb (valid_algo op)
    [Int.wrap x0; Int.wrap x1; Int.wrap x2; Int.wrap x3; Int.wrap x4] = true ->
  field_float f1 = S754_nan \/ field_float f5 = S754_nan ->
  exists d,
    (OpenDecoder_ctor op u
       (Some (int_literal i0 :: f0 :: int_literal x0 :: f1 :: int_literal x1 :: f2 ::
              int_literal x2 :: f3 :: int_literal x3 :: f4 :: int_literal x4 :: f5 ::
              rest))
       batch_size seq_len head_num size_per_head memory_hidden_units).2 = returns d /\
    is_fuse_QKV d = false.
Proof.
  intros Hvalid Hnan. rewrite ctor_on_twelve_fields.
  set (ids := [Int.wrap x0; Int.wrap x1; Int.wrap x2; Int.wrap x3; Int.wrap x4]) in *.
  assert (Hfuse : float_lt (field_float f5)
                    (float_mul (field_float f1) (float_of_int 3)) = false).
  { destruct Hnan as [-> | ->].
    - rewrite float_mul_nan_l. apply float_lt_nan_r.
    - reflexivity. }
  destruct op.
  - pose proof (find_out_of_range _ _ _ ids valid_algo_FP32) as Hf.
    destruct (find _ ids) as [x|].
    + destruct Hf as (_ & _ & Hall). rewrite Hall in Hvalid. discriminate.
    + eexists. split; [reflexivity|]. exact Hfuse.
  - pose proof (find_out_of_range _ _ _ ids valid_algo_FP16) as Hf.
    destruct (find _ ids) as [x|].
    + destruct Hf as (_ & _ & Hall). rewrite Hall in Hvalid. discriminate.
    + eexists. split; [reflexivity|]. exact Hfuse.
Qed.

Lemma nan_timing_disables_fusion_witness :
  exists d,
    (OpenDecoder_ctor FP32 example_junk
       (Some [int_literal 3; real_literal (float_of_int 2);
              int_literal 4; real_literal S754_nan;
              int_literal 5; real_literal (float_of_int 2);
              int_literal 6; real_literal (float_of_int 2);
              int_literal 7; real_literal (float_of_int 2);
              int_literal 8; real_literal (float_of_int 1)])
       1 8 1 1 16).2 = returns d /\
    is_fuse_QKV d = false.
Proof.
  apply (nan_timing_disables_fusion FP32 example_junk 3 4 5 6 7 8
           (real_literal (float_of_int 2)) (real_literal S754_nan)
           (real_literal (float_of_int 2)) (real_literal (float_of_int 2))
           (real_literal (float_of_int 2)) (real_literal (float_of_int 1)) []
           1 8 1 1 16).
  - vm_compute. reflexivity.
  - left. reflexivity.
Defined.

(** X5: on an object that the constructor built on its fallback path (no
    tuning file, or one that does not parse in full), binding a workspace
    issues no call to the runtime: no pointer array is copied to the
    device. *)
Theorem no_copy_without_tuning_file (op : OperationType) (u : indeterminate)
    (file : option (list field))
    (batch_size seq_len head_num size_per_head memory_hidden_units : Z)
    (d : OpenDecoder) (param : DecoderInitParam) (buf : ptr) :
  falls_back file ->
  (OpenDecoder_ctor op u file
     batch_size seq_len head_num size_per_head memory_hidden_units).2 = returns d ->
  (initialize d param buf).2 = [].
Proof.
  intros Hfb Hd.
  rewrite (ctor_fallback_result _ _ _ _ _ _ _ _ Hfb) in Hd. injection Hd as <-.
  reflexivity.
Qed.

Lemma no_copy_without_tuning_file_witness :
  (initialize (construct FP16 example_junk (replicate 5 99) false 2 8 4 16 16)
     example_param 4096).2 = [].
Proof.
  apply (no_copy_without_tuning_file FP16 example_junk None 2 8 4 16 16).
  - exact I.
  - reflexivity.
Defined.

(** ** The workspace *)

(** Where [initialize] puts its thirteen pointers, while the offsets are
    [int]s. *)
Lemma initialize_offsets (d : OpenDecoder) (param : DecoderInitParam) (buf : ptr) :
  0 <= batch_size_ d * hidden_units_ d ->
  13 * (batch_size_ d * hidden_units_ d) <= Int.max_signed ->
  let d' := (initialize d param buf).1 in
  let esz := sizeof_DataType (OpType_ d) in
  let bh := batch_size_ d * hidden_units_ d in
  workspace_pointers d'
  = map (fun k => buf + k * bh * esz) [0; 1; 2; 3; 4; 5; 6; 7; 8; 9] /\
  qkv_kernel_ d' = buf + 13 * bh * esz /\
  qkv_input_ d' = buf + 13 * bh * esz + 3 * sizeof_ptr /\
  qkv_buf_ d' = buf + 13 * bh * esz + 6 * sizeof_ptr.
Proof.
  intros Hbh Hmax d' esz bh. fold bh in Hbh, Hmax.
  assert (Hm : forall k, 0 <= k <= 13 -> Int.mul k bh = k * bh).
  { intros k Hk. apply mul_in_range.
    unfold Int.in_range, Int.min_signed, Int.max_signed in *. nia. }
  assert (Hbs : Int.mul (batch_size_ d) (hidden_units_ d) = bh).
  { apply mul_in_range. fold bh.
    unfold Int.in_range, Int.min_signed, Int.max_signed in *. lia. }
  subst d'. unfold workspace_pointers, initialize.
  cbn [fst norm_from_tensor_buf_ query_buf_ key_buf_ value_buf_ context_buf_
       masked_output_buf_ norm_masked_output_buf_ cross_output_buf_
       norm_cross_output_buf_ ffn_inner_buf_ qkv_kernel_ qkv_input_ qkv_buf_ map].
  rewrite Hbs, !Hm by lia. unfold ptr_add, pptr_add. fold esz.
  split; [|repeat split; ring].
  repeat (apply (f_equal2 cons); [ring|]). reflexivity.
Qed.

Lemma sizeof_DataType_bounds (op : OperationType) : 2 <= sizeof_DataType op <= 4.
Proof. destruct op; simpl; lia. Qed.

(** X6: a buffer of [getWorkspaceSize()] elements of the data type is
    large enough for everything [initialize] binds into it: the pointer
    arrays end [13 * b * h] elements and nine pointers after the start of
    the buffer, which is within [getWorkspaceSize()] elements. *)
Theorem workspace_elements_suffice (d : OpenDecoder) (param : DecoderInitParam)
    (buf : ptr) :
  0 <= batch_size_ d * hidden_units_ d ->
  13 * (batch_size_ d * hidden_units_ d) + 9 * sizeof_ptr <= Int.max_signed ->
  let d' := (initialize d param buf).1 in
  let esz := sizeof_DataType (OpType_ d) in
  workspace_end d'
  = buf + 13 * (batch_size_ d * hidden_units_ d) * esz + 9 * sizeof_ptr /\
  workspace_end d' <= buf + getWorkspaceSize d * esz.
Proof.
  intros Hbh Hmax d' esz.
  destruct (initialize_offsets d param buf Hbh) as (_ & _ & _ & Hq);
    [unfold sizeof_ptr in Hmax; lia|].
  fold d' esz in Hq.
  assert (Hend : workspace_end d'
                 = buf + 13 * (batch_size_ d * hidden_units_ d) * esz + 9 * sizeof_ptr).
  { unfold workspace_end, pptr_add. rewrite Hq. ring. }
  split; [exact Hend|].
  rewrite Hend, getWorkspaceSize_wrap, wrap_in_range.
  - pose proof (sizeof_DataType_bounds (OpType_ d)). fold esz in H.
    unfold sizeof_ptr. nia.
  - unfold Int.in_range, Int.min_signed, Int.max_signed, sizeof_ptr in *. lia.
Qed.

Lemma workspace_elements_suffice_witness :
  let d := example_decoder FP16 8 16 64 in
  workspace_end (initialize d example_param 4096).1 <= 4096 + getWorkspaceSize d * 2.
Proof.
  intros d.
  refine (proj2 (workspace_elements_suffice d example_param 4096 _ _));
    vm_compute; congruence.
Defined.

(** X7: a buffer of [getWorkspaceSize()] bytes is too small as soon as
    there is one element to hold: the pointer arrays end past it. *)
Theorem workspace_bytes_do_not_suffice (d : OpenDecoder) (param : DecoderInitParam)
    (buf : ptr) :
  0 < batch_size_ d * hidden_units_ d ->
  13 * (batch_size_ d * hidden_units_ d) + 9 * sizeof_ptr <= Int.max_signed ->
  buf + getWorkspaceSize d < workspace_end (initialize d param buf).1.
Proof.
  intros Hbh Hmax.
  destruct (initialize_offsets d param buf) as (_ & _ & _ & Hq);
    [lia | unfold sizeof_ptr in Hmax; lia |].
  unfold workspace_end, pptr_add. rewrite Hq.
  rewrite getWorkspaceSize_wrap, wrap_in_range.
  - pose proof (sizeof_DataType_bounds (OpType_ d)). unfold sizeof_ptr. nia.
  - unfold Int.in_range, Int.min_signed, Int.max_signed, sizeof_ptr in *. lia.
Qed.

Lemma workspace_bytes_do_not_suffice_witness :
  let d := example_decoder FP32 1 1 1 in
  4096 + getWorkspaceSize d < workspace_end (initialize d example_param 4096).1.
Proof.
  intros d.
  apply (workspace_bytes_do_not_suffice d example_param 4096); vm_compute; congruence.
Defined.

(** X8: in a buffer aligned for pointers, the kernel-pointer array (and
    with it the other two, 24 and 48 bytes further) is aligned for
    pointers exactly when [b * h] is even in full precision, and when it
    is a multiple of four in reduced precision. *)
Theorem pointer_arrays_alignment (d : OpenDecoder) (param : DecoderInitParam)
    (buf : ptr) :
  0 <= batch_size_ d * hidden_units_ d ->
  13 * (batch_size_ d * hidden_units_ d) <= Int.max_signed ->
  buf mod sizeof_ptr = 0 ->
  qkv_kernel_ (initialize d param buf).1 mod sizeof_ptr = 0
  <-> (batch_size_ d * hidden_units_ d)
      mod (match OpType_ d with FP32 => 2 | FP16 => 4 end) = 0.
Proof.
  intros Hbh Hmax Hbuf.
  destruct (initialize_offsets d param buf Hbh Hmax) as (_ & -> & _).
  unfold sizeof_ptr in *.
  destruct (OpType_ d); cbn [sizeof_DataType];
    generalize dependent (batch_size_ d * hidden_units_ d); intros bh Hbh Hmax;
    split; intros H; Z.div_mod_to_equations; lia.
Qed.

Lemma pointer_arrays_alignment_witness :
  qkv_kernel_ (initialize (example_decoder FP16 1 1 2) example_param 4096).1
  mod sizeof_ptr = 0
  <-> 2 mod 4 = 0.
Proof.
  apply (pointer_arrays_alignment (example_decoder FP16 1 1 2) example_param 4096);
    vm_compute; congruence.
Defined.

(** A reduced-precision decoder of batch size 1 and hidden width 2: its
    pointer arrays start 52 bytes into an aligned buffer. *)
Example pointer_arrays_misaligned :
  qkv_kernel_ (initialize (example_decoder FP16 1 1 2) example_param 4096).1 mod 8 = 4.
Proof. reflexivity. Qed.

Lemma increasing_NoDup (l : list Z) :
  (forall (i j : nat) x y, (i < j)%nat -> l !! i = Some x -> l !! j = Some y -> x < y) ->
  NoDup l.
Proof.
  induction l as [|a l IH]; intros H; [constructor|].
  apply list.NoDup_cons. split.
  - intros Hin. apply list_elem_of_lookup in Hin as [j Hj].
    specialize (H 0%nat (S j) a a). cbn in H. specialize (H ltac:(lia) eq_refl Hj). lia.
  - apply IH. intros i j x y Hij Hi Hj. apply (H (S i) (S j)); [lia|assumption..].
Qed.

(** X9: when there is at least one element to hold, the ten region
    pointers that [initialize] binds are all different. *)
Theorem initialize_regions_distinct (d : OpenDecoder) (param : DecoderInitParam)
    (buf : ptr) :
  0 < batch_size_ d * hidden_units_ d ->
  13 * (batch_size_ d * hidden_units_ d) <= Int.max_signed ->
  NoDup (workspace_pointers (initialize d param buf).1).
Proof.
  intros Hbh Hmax.
  destruct (initialize_offsets d param buf) as (-> & _); [lia | exact Hmax |].
  pose proof (sizeof_DataType_bounds (OpType_ d)) as Hesz.
  set (step := batch_size_ d * hidden_units_ d * sizeof_DataType (OpType_ d)).
  assert (Hstep : 0 < step) by (subst step; nia).
  apply increasing_NoDup. intros i j x y Hij Hi Hj.
  assert (Hget : forall (k : nat) z,
            map (fun k => buf + k * (batch_size_ d * hidden_units_ d)
                                * sizeof_DataType (OpType_ d))
              [0; 1; 2; 3; 4; 5; 6; 7; 8; 9] !! k = Some z ->
            z = buf + Z.of_nat k * step).
  { intros k z Hk. subst step.
    do 10 (destruct k as [|k]; [injection Hk as <-; cbn; ring|]).
    discriminate Hk. }
  rewrite (Hget i x Hi), (Hget j y Hj). nia.
Qed.

Lemma initialize_regions_distinct_witness :
  NoDup (workspace_pointers (bound_decoder FP32 1 1 1)).
Proof.
  apply (initialize_regions_distinct (example_decoder FP32 1 1 1) example_param 4096);
    vm_compute; congruence.
Defined.

(** X10: with no element to hold (batch size or hidden width zero), the
    ten region pointers all equal the buffer's address, and the pointer
    arrays start there too. *)
Theorem initialize_empty_batch (d : OpenDecoder) (param : DecoderInitParam)
    (buf : ptr) :
  batch_size_ d * hidden_units_ d = 0 ->
  let d' := (initialize d param buf).1 in
  workspace_pointers d' = replicate 10 buf /\
  qkv_kernel_ d' = buf /\
  workspace_end d' = buf + 9 * sizeof_ptr.
Proof.
  intros Hbh d'. subst d'.
  unfold workspace_end, workspace_pointers, initialize.
  cbn [fst norm_from_tensor_buf_ query_buf_ key_buf_ value_buf_ context_buf_
       masked_output_buf_ norm_masked_output_buf_ cross_output_buf_
       norm_cross_output_buf_ ffn_inner_buf_ qkv_kernel_ qkv_input_ qkv_buf_ replicate].
  assert (Hbs : Int.mul (batch_size_ d) (hidden_units_ d) = 0).
  { unfold Int.mul. rewrite Hbh. reflexivity. }
  assert (Hk : forall k, Int.mul k 0 = 0).
  { intros k. unfold Int.mul. rewrite Z.mul_0_r. reflexivity. }
  rewrite Hbs, !Hk. unfold ptr_add, pptr_add. rewrite !Z.mul_0_l, !Z.add_0_r.
  repeat split. ring.
Qed.

Lemma initialize_empty_batch_witness :
  workspace_pointers (initialize (example_decoder FP32 0 8 64) example_param 4096).1
  = replicate 10 4096.
Proof.
  refine (proj1 (initialize_empty_batch (example_decoder FP32 0 8 64) example_param
                   4096 _)).
  reflexivity.
Defined.

(** Writing an array of pointers touches only its slots. *)
Lemma write_ptrs_other (src : list ptr) : forall (dst : ptr) (n : nat)
    (mem : gmap Z ptr) (a : ptr),
  (forall i : nat, (i < n)%nat -> (i < length src)%nat ->
                   a <> pptr_add dst (Z.of_nat i)) ->
  write_ptrs dst src n mem !! a = mem !! a.
Proof.
  induction src as [|p src IH]; intros dst n mem a Ha; [destruct n; reflexivity|].
  destruct n as [|n]; [reflexivity|]. cbn [write_ptrs].
  rewrite IH.
  - apply lookup_insert_ne. intros ->.
    apply (Ha 0%nat); [lia | cbn; lia |]. unfold pptr_add. cbn. lia.
  - intros i Hn Hs. specialize (Ha (S i) ltac:(lia) ltac:(cbn; lia)).
    intros ->. apply Ha. unfold pptr_add, sizeof_ptr. lia.
Qed.

(** X11: whatever the fusion flag, binding leaves every word of device
    pointer memory other than the nine slots of the three pointer arrays
    as it was. *)
Theorem initialize_writes_only_pointer_arrays (d : OpenDecoder)
    (param : DecoderInitParam) (buf : ptr) (mem : gmap Z ptr) (a : ptr) :
  let d' := (initialize d param buf).1 in
  (forall i, 0 <= i < 9 -> a <> pptr_add (qkv_kernel_ d') i) ->
  foldl (fun m c => run_runtime_call c m) mem (initialize d param buf).2 !! a
  = mem !! a.
Proof.
  intros d' Ha. subst d'. unfold initialize in *.
  cbn [fst snd qkv_kernel_] in *.
  destruct (is_fuse_QKV d); [|reflexivity].
  cbn [foldl run_runtime_call]. apply write_ptrs_other.
  intros i Hn _. apply Ha.
  assert (Z.to_nat (SizeT.mul sizeof_ptr 9 / sizeof_ptr) = 9%nat) by reflexivity.
  lia.
Qed.

Lemma initialize_writes_only_pointer_arrays_witness :
  foldl (fun m c => run_runtime_call c m) (∅ : gmap Z ptr)
    (initialize (construct FP32 example_junk [4; 5; 6; 7; 8] true 1 8 1 1 16)
       example_param 4096).2 !! 4096 = (∅ : gmap Z ptr) !! 4096.
Proof.
  apply (initialize_writes_only_pointer_arrays
           (construct FP32 example_junk [4; 5; 6; 7; 8] true 1 8 1 1 16)
           example_param 4096 ∅ 4096).
  intros i Hi. change (qkv_kernel_ _) with 4148. unfold pptr_add, sizeof_ptr. lia.
Defined.

(** ** The step *)

Section StepProperties.

Context {W : Type}.
Variable exec : call -> W -> outcome W.



(** X13: an exception that a call throws, the calls before it having
    returned, reaches the caller of [forward] as its catch clause rethrows
    it: one of a class derived from [std::runtime_error] arrives as a plain
    [std::runtime_error] that holds the message of its base, its class and
    what the class made [what()] return lost; a plain [std::runtime_error]
    and an exception of any other class arrive unchanged.  Either way no
    further call is issued. *)
Theorem forward_rethrows_by_copy (NDEBUG : bool) (d : OpenDecoder)
    (from_tensor memory_tensor key_cache_ value_cache_ key_mem_cache_
       value_mem_cache_ memory_sequence_length decoder_output : ptr)
    (step : Z) (is_cross_attention : bool)
    (cs1 cs2 : list call) (c : call) (s s1 : machine W) (e : exception) (w : W) :
  forward_calls NDEBUG d from_tensor memory_tensor key_cache_ value_cache_
    key_mem_cache_ value_mem_cache_ memory_sequence_length decoder_output
    step is_cross_attention = cs1 ++ c :: cs2 ->
  run_calls exec cs1 s = (normal tt, s1) ->
  exec c (world s1) = throws e w ->
  forward exec NDEBUG d from_tensor memory_tensor key_cache_ value_cache_
    key_mem_cache_ value_mem_cache_ memory_sequence_length decoder_output
    step is_cross_attention s
  = (abrupt match e with
            | runtime_error_derived _ base_what _ => runtime_error base_what
            | _ => e
            end,
     {| world := w; issued := issued s ++ cs1 ++ [c] |}).
Proof.
  intros Hcalls Hrun Hthrow.
  rewrite forward_run, Hcalls, run_calls_app, Hrun.
  cbn [run_calls]. unfold invoke. rewrite Hthrow.
  rewrite (run_calls_normal_issued _ _ _ _ _ Hrun), <- app_assoc.
  destruct e; reflexivity.
Qed.

End StepProperties.

Lemma forward_rethrows_by_copy_witness :
  forward overriding_exec true (bound_decoder FP32 1 1 1) 8192 0 8196 8200 0 0 0 8204 3
    false {| world := tt; issued := [] |}
  = (abrupt (runtime_error "cannot open"),
     {| world := tt;
        issued := [decoder_norm1 8192 64 68 4096 1 1;
                   masked_multi_head_attention 4096 8196 8200 4116 3;
                   decoder_norm2 8192 144 148 100 4116 4120 1 1;
                   ffn 4120 4132 8204 1 4 1 GELU] |}).
Proof.
  apply (forward_rethrows_by_copy overriding_exec true (bound_decoder FP32 1 1 1)
           8192 0 8196 8200 0 0 0 8204 3 false
           [decoder_norm1 8192 64 68 4096 1 1;
            masked_multi_head_attention 4096 8196 8200 4116 3;
            decoder_norm2 8192 144 148 100 4116 4120 1 1]
           [add_bias_input 8204 4116 1 1]
           (ffn 4120 4132 8204 1 4 1 GELU)
           {| world := tt; issued := [] |}
           {| world := tt;
              issued := [decoder_norm1 8192 64 68 4096 1 1;
                         masked_multi_head_attention 4096 8196 8200 4116 3;
                         decoder_norm2 8192 144 148 100 4116 4120 1 1] |}
           (runtime_error_derived "std::filesystem::filesystem_error"
              "cannot open" "filesystem error: cannot open [ffn.bin]") tt);
    reflexivity.
Defined.

(** Every call of a self+cross step writes within [cross_written]. *)
Lemma cross_calls_write (NDEBUG : bool) (d : OpenDecoder)
    (from_tensor memory_tensor key_cache_ value_cache_ key_mem_cache_
       value_mem_cache_ memory_sequence_length decoder_output : ptr)
    (step : Z) (p : ptr) :
  p ∉ cross_written d key_cache_ value_cache_ key_mem_cache_ value_mem_cache_
        decoder_output ->
  Forall (fun c => p ∉ may_write d c)
    (forward_calls NDEBUG d from_tensor memory_tensor key_cache_ value_cache_
       key_mem_cache_ value_mem_cache_ memory_sequence_length decoder_output
       step true).
Proof.
  unfold cross_written. rewrite !not_elem_of_cons.
  intros (? & ? & ? & ? & ? & ? & ? & ? & ? & ? & ? & ? & ? & ? & ? & _).
  unfold forward_calls, cross_kernels, with_debug_checks, debug_calls.
  destruct NDEBUG; cbn [flat_map app];
    repeat match goal with
      | |- Forall _ (_ :: _) => constructor
      | |- Forall _ [] => constructor
      end;
    cbn [may_write]; unfold attention_scratch;
    rewrite ?not_elem_of_cons; repeat split; try assumption; apply not_elem_of_nil.
Qed.

(** X14: in either variant, for kernels that write only through the
    pointers to non-const they are handed and the scratch buffers of the
    object, a buffer that is none of those the step hands out for writing
    holds after [forward], returned or thrown, what it held before: the
    weights, the input and the encoder memory are never modified unless
    they alias such a buffer. *)
Theorem forward_frame {tensor : Type}
    (exec : call -> (ptr -> tensor) -> outcome (ptr -> tensor))
    (NDEBUG : bool) (d : OpenDecoder)
    (from_tensor memory_tensor key_cache_ value_cache_ key_mem_cache_
       value_mem_cache_ memory_sequence_length decoder_output : ptr)
    (step : Z) (is_cross_attention : bool) (s : machine (ptr -> tensor)) (p : ptr) :
  respects_footprint d exec ->
  p ∉ step_written d key_cache_ value_cache_ key_mem_cache_ value_mem_cache_
        decoder_output is_cross_attention ->
  world (forward exec NDEBUG d from_tensor memory_tensor key_cache_ value_cache_
           key_mem_cache_ value_mem_cache_ memory_sequence_length decoder_output
           step is_cross_attention s).2 p
  = world s p.
Proof.
  intros Hexec Hp. rewrite forward_final_state.
  apply (run_calls_frame d exec Hexec).
  destruct is_cross_attention; cbn [step_written] in Hp.
  - apply cross_calls_write, Hp.
  - apply self_only_calls_write, Hp.
Qed.

Lemma forward_frame_witness :
  let d := bound_decoder FP32 1 1 1 in
  world (forward (exec_kernels integer_collaborators d) false d
           8192 8208 8196 8200 8212 8216 8220 8204 3 true
           {| world := ones; issued := [] |}).2 144
  = 1.
Proof.
  intros d.
  apply (forward_frame (exec_kernels integer_collaborators d) false d
           8192 8208 8196 8200 8212 8216 8220 8204 3 true
           {| world := ones; issued := [] |} 144
           (exec_kernels_respects_footprint integer_collaborators d)).
  compute_done.
Defined.

(** X15: when the buffers that the caller and the weights supply for
    reading are none of the ten workspace regions, every workspace region
    that a kernel of the step takes through a pointer to const has been
    handed to an earlier kernel of the same step through a pointer to
    non-const: no kernel is given a region to read that the step has not
    handed out for writing first. *)
Theorem forward_regions_written_before_read (NDEBUG : bool) (d : OpenDecoder)
    (from_tensor memory_tensor key_cache_ value_cache_ key_mem_cache_
       value_mem_cache_ memory_sequence_length decoder_output : ptr)
    (step : Z) (is_cross_attention : bool) :
  Forall (fun p => p ∉ workspace_pointers d)
    (supplied_read_only d from_tensor memory_tensor memory_sequence_length) ->
  staged (workspace_pointers d) []
    (forward_calls NDEBUG d from_tensor memory_tensor key_cache_ value_cache_
       key_mem_cache_ value_mem_cache_ memory_sequence_length decoder_output
       step is_cross_attention).
Proof.
  unfold supplied_read_only, cross_read_only. intros Hread.
  repeat match goal with
    | H : Forall _ (_ :: _) |- _ => inversion_clear H
    end.
  unfold forward_calls, cross_kernels, self_only_kernels, with_debug_checks, debug_calls.
  destruct NDEBUG, is_cross_attention;
    cbn [flat_map app staged const_args mutable_args];
    repeat split;
    repeat match goal with
      | |- Forall _ (_ :: _) => constructor
      | |- Forall _ [] => constructor
      end;
    intros Hin; first
      [ contradiction
      | solve [repeat constructor] ].
Qed.

Lemma forward_regions_written_before_read_witness :
  let d := bound_decoder FP32 1 1 1 in
  staged (workspace_pointers d) []
    (forward_calls true d 8192 8208 8196 8200 8212 8216 8220 8204 3 true).
Proof.
  intros d.
  apply (forward_regions_written_before_read true d
           8192 8208 8196 8200 8212 8216 8220 8204 3 true).
  compute_done.
Defined.

(** ** The debug checks *)

Section DebugChecks.

Context {W : Type}.
Variable exec : call -> W -> outcome W.

(** No device error is pending: synchronising returns, the error check
    passes, and neither changes the world. *)
Hypothesis synchronize_returns : forall w, exec cudaDeviceSynchronize w = completes w.
Hypothesis check_passes : forall w, exec check_cuda_error_cudaGetLastError w = completes w.

Lemma run_calls_cons (c : call) (cs : list call) (s : machine W) :
  run_calls exec (c :: cs) s
  = match exec c (world s) with
    | completes w => run_calls exec cs {| world := w; issued := issued s ++ [c] |}
    | throws e w => (abrupt e, {| world := w; issued := issued s ++ [c] |})
    end.
Proof.
  cbn [run_calls]. unfold invoke. destruct (exec c (world s)); reflexivity.
Qed.

Lemma run_calls_debug_checks (ks : list call) : forall s1 s2 : machine W,
  same_but_checks s1 s2 ->
  (run_calls exec (with_debug_checks false ks) s1).1
  = (run_calls exec (with_debug_checks true ks) s2).1 /\
  same_but_checks (run_calls exec (with_debug_checks false ks) s1).2
                  (run_calls exec (with_debug_checks true ks) s2).2.
Proof.
  induction ks as [|k ks IH]; intros s1 s2 Hs.
  - split; [reflexivity|exact Hs].
  - change (with_debug_checks false (k :: ks))
      with (k :: cudaDeviceSynchronize :: check_cuda_error_cudaGetLastError
              :: with_debug_checks false ks).
    change (with_debug_checks true (k :: ks)) with (k :: with_debug_checks true ks).
    rewrite (run_calls_cons k _ s1), (run_calls_cons k _ s2).
    destruct Hs as [Hw Hiss]. rewrite <- Hw.
    destruct (exec k (world s1)) as [w|e w].
    + rewrite run_calls_cons. cbn [world issued]. rewrite synchronize_returns.
      rewrite run_calls_cons. cbn [world issued]. rewrite check_passes.
      apply IH. split; [reflexivity|]. cbn [issued].
      rewrite !List.filter_app, Hiss. cbn [List.filter is_kernel].
      rewrite !app_nil_r. reflexivity.
    + split; [reflexivity|]. split; [reflexivity|]. cbn [snd issued].
      rewrite !List.filter_app, Hiss. reflexivity.
Qed.

(** X16: while no device error is pending (synchronising returns and the
    error check passes, leaving the world as it is), a build with the
    debug checks and a build without them agree on a step: [forward]
    returns or throws the same exception in both, leaves the same world,
    and has issued the same kernels in the same order. *)
Theorem forward_debug_checks_transparent (d : OpenDecoder)
    (from_tensor memory_tensor key_cache_ value_cache_ key_mem_cache_
       value_mem_cache_ memory_sequence_length decoder_output : ptr)
    (step : Z) (is_cross_attention : bool) (s1 s2 : machine W) :
  same_but_checks s1 s2 ->
  (forward exec false d from_tensor memory_tensor key_cache_ value_cache_
     key_mem_cache_ value_mem_cache_ memory_sequence_length decoder_output
     step is_cross_attention s1).1
  = (forward exec true d from_tensor memory_tensor key_cache_ value_cache_
       key_mem_cache_ value_mem_cache_ memory_sequence_length decoder_output
       step is_cross_attention s2).1 /\
  same_but_checks
    (forward exec false d from_tensor memory_tensor key_cache_ value_cache_
       key_mem_cache_ value_mem_cache_ memory_sequence_length decoder_output
       step is_cross_attention s1).2
    (forward exec true d from_tensor memory_tensor key_cache_ value_cache_
       key_mem_cache_ value_mem_cache_ memory_sequence_length decoder_output
       step is_cross_attention s2).2.
Proof.
  intros Hs. rewrite !forward_run. unfold forward_calls.
  match goal with
  | |- context [with_debug_checks false ?ks] =>
      destruct (run_calls_debug_checks ks s1 s2 Hs) as [Hc Hw]
  end.
  destruct (run_calls exec (with_debug_checks false _) s1) as [[[]|e1] t1],
           (run_calls exec (with_debug_checks true _) s2) as [[[]|e2] t2];
    cbn [fst snd] in *; try discriminate; split; try exact Hw; try reflexivity.
  injection Hc as ->. reflexivity.
Qed.

End DebugChecks.

Lemma forward_debug_checks_transparent_witness :
  let d := bound_decoder FP32 1 1 1 in
  let s := {| world := ones; issued := [] |} in
  (forward (exec_kernels integer_collaborators d) false d
     8192 8208 8196 8200 8212 8216 8220 8204 3 true s).1
  = (forward (exec_kernels integer_collaborators d) true d
       8192 8208 8196 8200 8212 8216 8220 8204 3 true s).1 /\
  same_but_checks
    (forward (exec_kernels integer_collaborators d) false d
       8192 8208 8196 8200 8212 8216 8220 8204 3 true s).2
    (forward (exec_kernels integer_collaborators d) true d
       8192 8208 8196 8200 8212 8216 8220 8204 3 true s).2.
Proof.
  intros d s.
  apply (forward_debug_checks_transparent (exec_kernels integer_collaborators d)
           (fun w => eq_refl) (fun w => eq_refl) d
           8192 8208 8196 8200 8212 8216 8220 8204 3 true s s).
  split; reflexivity.
Defined.
